(** * msit-dl: a shallow embedding of [msit_dl.py]

    The program scans the listing pages of a press-release board, fetches the
    detail page of every article found, and downloads the attachments whose
    extension is hwp, hwpx or odt.

    Modelling choices.
    - A Python [str] is a list of Unicode code points ([pystr]); a literal of
      the source is written [py "..."].
    - [re.findall] is a backtracking matcher for the constructs of the two
      patterns.  The character classes are Python's on the ASCII range; on
      other code points they are read from a table [unicode_db] that the
      definitions take as a parameter.
    - [list(set(xs))] lists each element once in an order left open
      ([set_order]).
    - The file system is a finite map from path strings to the contents of
      regular files; a path is a key as written (POSIX [os.path.join], no
      normalisation).
    - [subprocess.run] on a curl command line asks an external world for the
      outcome: an exit status with the captured output, or a raised
      exception ([TimeoutExpired], [OSError], an interrupt), and what curl
      wrote to the file named after [-o], if any.
    - [time.sleep] and [os.makedirs] return or raise as the operating
      system decides ([os_error]); in any case [time.sleep] raises for a
      length that is negative or not a number, and [os.makedirs] for the
      empty path and for a path that is a regular file.  [--delay] is an
      IEEE 754 double, as a Python float is.
    - The program is written in a state-and-exception monad over the world,
      the file system and a trace of the directory creation, the curl runs
      and the delays.
    - Console output is not modelled; [main] returns the tally its last
      line prints. *)

From Stdlib Require Import Ascii String PrimFloat.
From stdpp Require Import gmap list sorting.

#[local] Set Warnings "-clear-no-such-hyp".

Local Open Scope Z_scope.

(** ** Python strings *)

Abbreviation pystr := (list N).

Fixpoint py (s : string) : pystr :=
  match s with
  | EmptyString => []
  | String a s' => N_of_ascii a :: py s'
  end.

(** [str(n)] for a Python int. *)
Fixpoint digits_of_uint (d : Decimal.uint) : pystr :=
  match d with
  | Decimal.Nil => []
  | Decimal.D0 d' => 48%N :: digits_of_uint d'
  | Decimal.D1 d' => 49%N :: digits_of_uint d'
  | Decimal.D2 d' => 50%N :: digits_of_uint d'
  | Decimal.D3 d' => 51%N :: digits_of_uint d'
  | Decimal.D4 d' => 52%N :: digits_of_uint d'
  | Decimal.D5 d' => 53%N :: digits_of_uint d'
  | Decimal.D6 d' => 54%N :: digits_of_uint d'
  | Decimal.D7 d' => 55%N :: digits_of_uint d'
  | Decimal.D8 d' => 56%N :: digits_of_uint d'
  | Decimal.D9 d' => 57%N :: digits_of_uint d'
  end.

Definition str_of_N (n : N) : pystr := digits_of_uint (N.to_uint n).

Definition str_of_int (z : Z) : pystr :=
  match z with
  | Z0 => py "0"
  | Zpos p => str_of_N (Npos p)
  | Zneg p => py "-" ++ str_of_N (Npos p)
  end.

(** ** The fragment of [re] the program uses *)

(** What Python's Unicode database says of a code point outside ASCII. *)
Record unicode_db := {
  uni_decimal : N -> bool;   (* category Nd *)
  uni_space : N -> bool;     (* str.isspace *)
  uni_alnum : N -> bool      (* str.isalnum *)
}.

Definition between (lo hi c : N) : bool := ((lo <=? c) && (c <=? hi))%N.

Inductive cls := Digit | Space | Word.

Section Regex.
Variable U : unicode_db.

(** [\d] *)
Definition is_digit (c : N) : bool :=
  if (c <? 128)%N then between 48 57 c else uni_decimal U c.

(** [\s] *)
Definition is_space (c : N) : bool :=
  if (c <? 128)%N then between 9 13 c || between 28 32 c else uni_space U c.

(** [\w] *)
Definition is_word (c : N) : bool :=
  if (c <? 128)%N
  then between 48 57 c || between 65 90 c || between 97 122 c || (c =? 95)%N
  else uni_alnum U c.

Definition in_class (k : cls) (c : N) : bool :=
  match k with
  | Digit => is_digit c
  | Space => is_space c
  | Word => is_word c
  end.

(** Pattern items: a literal character, [k*] for a class [k], and the
    capturing group [(k+)]. *)
Inductive item := Lit (c : N) | Star (k : cls) | Group (k : cls).

Definition lits (s : string) : list item := map Lit (py s).

(** [match_here p s] tries to match [p] at the start of [s], as the
    backtracking engine does: a repetition takes as many characters as it
    can and gives them back one by one while the rest of the pattern fails.
    The result is the captured groups and the number of characters
    consumed. *)
Fixpoint match_here (p : list item) : pystr -> option (list pystr * nat) :=
  match p with
  | [] => fun _ => Some ([], O)
  | Lit c :: p' => fun s =>
      match s with
      | x :: s' =>
          if (x =? c)%N
          then match match_here p' s' with
               | Some (g, n) => Some (g, S n)
               | None => None
               end
          else None
      | [] => None
      end
  | Star k :: p' =>
      fix star (s : pystr) : option (list pystr * nat) :=
        match s with
        | x :: s' =>
            if in_class k x
            then match star s' with
                 | Some (g, n) => Some (g, S n)
                 | None => match_here p' s
                 end
            else match_here p' s
        | [] => match_here p' s
        end
  | Group k :: p' =>
      fun s =>
        match
          (fix more (s : pystr) : option (pystr * list pystr * nat) :=
             match s with
             | x :: s' =>
                 if in_class k x
                 then match more s' with
                      | Some (cap, g, n) => Some (x :: cap, g, S n)
                      | None =>
                          match match_here p' s' with
                          | Some (g, n) => Some ([x], g, S n)
                          | None => None
                          end
                      end
                 else None
             | [] => None
             end) s
        with
        | Some (cap, g, n) => Some (cap :: g, n)
        | None => None
        end
  end.

(** [re.findall]: scan from left to right; after a match the scan resumes
    where the match ended ([skip] counts the characters of the last match
    still to be passed over).  The patterns here never match the empty
    string. *)
Fixpoint findall_from (p : list item) (skip : nat) (s : pystr)
  : list (list pystr) :=
  match s with
  | [] => []
  | _ :: s' =>
      match skip with
      | S k => findall_from p k s'
      | O =>
          match match_here p s with
          | Some (g, n) => g :: findall_from p (pred n) s'
          | None => findall_from p O s'
          end
      end
  end.

Definition findall (p : list item) (s : pystr) : list (list pystr) :=
  findall_from p O s.

(** r"fn_detail\((\d+)\)" *)
Definition detail_pattern : list item :=
  lits "fn_detail(" ++ [Group Digit] ++ lits ")".

(** r"fn_download\('(\d+)',\s*'(\d+)',\s*'(\w+)'\)" *)
Definition download_pattern : list item :=
  lits "fn_download('" ++ [Group Digit] ++ lits "'," ++ [Star Space]
    ++ lits "'" ++ [Group Digit] ++ lits "'," ++ [Star Space]
    ++ lits "'" ++ [Group Word] ++ lits "')".

End Regex.

(** ** Exceptions, processes, the file system *)

Inductive exn :=
  | TimeoutExpired | OSError | KeyError | ValueError | OverflowError
  | KeyboardInterrupt.

(** [isinstance(e, Exception)]: what [except Exception] catches. *)
Definition is_Exception (e : exn) : bool :=
  match e with
  | KeyboardInterrupt => false
  | _ => true
  end.

Inductive outcome (A : Type) := Ok (a : A) | Raise (e : exn).
Arguments Ok {A} a.
Arguments Raise {A} e.

(** The result of [subprocess.run(..., capture_output=True)]; [stdout] is
    held as decoded by [decode("utf-8", errors="replace")], which is total. *)
Record CompletedProcess := { returncode : Z; stdout : pystr }.

Abbreviation bytes := (list Byte.byte).

Inductive event :=
  | EvMakedirs (path : pystr)
  | EvRun (argv : list pystr)
  | EvSleep (secs : float).

(** The calls that return nothing or raise: [time.sleep(secs)] and
    [os.makedirs(path, exist_ok=True)]. *)
Inductive oscall :=
  | Sleep (secs : float)
  | Makedirs (path : pystr).

(** The file curl writes the response body to: the argument of [-o].  The
    options [-A] and [-d] take an argument too. *)
Fixpoint curl_output (opts : list pystr) : option pystr :=
  match opts with
  | a :: (b :: rest) as tl =>
      if decide (a = py "-o") then Some b
      else if decide (a = py "-A") then curl_output rest
      else if decide (a = py "-d") then curl_output rest
      else curl_output tl
  | _ => None
  end.

(** [list(set(xs))]: each element once, in an order Python does not
    specify. *)
Record set_order := {
  list_of_set : list pystr -> list pystr;
  list_of_set_NoDup : forall xs, NoDup (list_of_set xs);
  list_of_set_elem : forall xs x, x ∈ list_of_set xs <-> x ∈ xs
}.

(** [sorted] on strings: code point by code point, a proper prefix first. *)
Fixpoint str_le (a b : pystr) : bool :=
  match a, b with
  | [], _ => true
  | _ :: _, [] => false
  | x :: a', y :: b' => (x <? y)%N || ((x =? y)%N && str_le a' b')
  end.

Fixpoint insert_sorted (x : pystr) (l : list pystr) : list pystr :=
  match l with
  | [] => [x]
  | y :: l' => if str_le x y then x :: l else y :: insert_sorted x l'
  end.

Definition sorted (l : list pystr) : list pystr := foldr insert_sorted [] l.

(** [os.path.join(a, b)] of [posixpath]. *)
Definition sep : N := 47%N.

Definition startswith_sep (b : pystr) : bool :=
  match b with
  | c :: _ => (c =? sep)%N
  | [] => false
  end.

Definition endswith_sep (a : pystr) : bool :=
  match last a with
  | Some c => (c =? sep)%N
  | None => false
  end.

Definition os_path_join (a b : pystr) : pystr :=
  if startswith_sep b then b
  else if bool_decide (a = []) || endswith_sep a then a ++ b
  else a ++ [sep] ++ b.

(** ** Constants of the module *)

Definition UA : pystr :=
  py "Mozilla/5.0 (X11; Linux x86_64) AppleWebKit/537.36 (KHTML, like Gecko) Chrome/120.0.0.0 Safari/537.36".

Definition LIST_URL (page : Z) : pystr :=
  py "https://www.msit.go.kr/bbs/list.do?sCode=user&mId=310&mPid=121&bbsSeqNo=96&pageIndex="
    ++ str_of_int page.

Definition VIEW_URL (ntt : pystr) : pystr :=
  py "https://www.msit.go.kr/bbs/view.do?sCode=user&mId=310&mPid=121&bbsSeqNo=96&nttSeqNo="
    ++ ntt.

Definition DOWNLOAD_URL : pystr := py "https://www.msit.go.kr/ssm/file/fileDown.do".

Definition accepted_exts : list pystr := [py "hwp"; py "hwpx"; py "odt"].

(** The entries [{"atchFileNo": .., "fileOrd": .., "ext": ..}]. *)
Record finfo := { atchFileNo : pystr; fileOrd : pystr; ext : pystr }.

Definition triple_of (f : finfo) : pystr * pystr * pystr :=
  (atchFileNo f, fileOrd f, ext f).

(** The parsed command line, as far as the program reads it. *)
Record args := { pages : Z; outdir : pystr; delay : float }.

(** [range(lo, hi)] *)
Definition range (lo hi : Z) : list Z :=
  map (fun i => lo + Z.of_nat i) (seq 0 (Z.to_nat (hi - lo))).

(** ** The program *)

Section Program.
Variable U : unicode_db.
Variable O : set_order.

(** The remote host and the network: what one curl command line leads to,
    namely what curl wrote to its output file (if it opened one) and how
    [subprocess.run] ended. *)
Variable World : Type.
Variable network : World -> list pystr -> World * option bytes * outcome CompletedProcess.

(** The operating system: what [time.sleep] and [os.makedirs] raise, if
    anything, beyond the checks written out below.  [time.sleep] raises
    [OverflowError] for a length that is too large; [os.makedirs] raises an
    [OSError] when the directory cannot be created; either can be
    interrupted. *)
Variable os_error : oscall -> option exn.

Record state := { world : World; fs : gmap pystr bytes; trace : list event }.

Definition M (A : Type) : Type := state -> outcome A * state.

Definition ret {A} (a : A) : M A := fun st => (Ok a, st).

Definition raise {A} (e : exn) : M A := fun st => (Raise e, st).

Definition bind {A B} (m : M A) (k : A -> M B) : M B :=
  fun st =>
    match m st with
    | (Ok a, st') => k a st'
    | (Raise e, st') => (Raise e, st')
    end.

(** [try: x = m; <k x>  except Exception as e: <h e>]; in the program
    nothing in [k] raises. *)
Definition try_except {A B} (m : M A) (k : A -> M B) (h : exn -> M B) : M B :=
  fun st =>
    match m st with
    | (Ok a, st') => k a st'
    | (Raise e, st') => if is_Exception e then h e st' else (Raise e, st')
    end.

Local Notation "x <- m ;; k" := (bind m (fun x => k))
  (at level 100, m at next level, right associativity).
Local Notation "m ;;; k" := (bind m (fun _ => k))
  (at level 100, right associativity).

(** [for x in l: acc = body x acc] *)
Fixpoint for_each {A S} (l : list A) (body : A -> S -> M S) (acc : S) : M S :=
  match l with
  | [] => ret acc
  | x :: l' => acc' <- body x acc;; for_each l' body acc'
  end.

Definition log (ev : event) : M unit :=
  fun st => (Ok tt, {| world := world st; fs := fs st; trace := trace st ++ [ev] |}).

(** What [time.sleep(secs)] raises, if anything: a length that is negative
    or not a number is refused in any case, with [ValueError] unless the
    operating system names another exception. *)
Definition sleep_error (secs : float) : option exn :=
  match os_error (Sleep secs) with
  | Some e => Some e
  | None => if (secs <? 0)%float || is_nan secs then Some ValueError else None
  end.

(** [time.sleep(secs)] *)
Definition time_sleep (secs : float) : M unit :=
  match sleep_error secs with
  | Some e => raise e
  | None => log (EvSleep secs)
  end.

(** [os.makedirs(path, exist_ok=True)]: [FileNotFoundError] for the empty
    path and [FileExistsError] for a path that is a regular file, both of
    them [OSError]s; a directory that is there is not an error. *)
Definition os_makedirs (path : pystr) : M unit :=
  fun st =>
    if bool_decide (path = []) || bool_decide (is_Some (fs st !! path))
    then (Raise OSError, st)
    else match os_error (Makedirs path) with
         | Some e => (Raise e, st)
         | None => log (EvMakedirs path) st
         end.

Definition os_path_exists (path : pystr) : M bool :=
  fun st => (Ok (bool_decide (is_Some (fs st !! path))), st).

Definition os_path_getsize (path : pystr) : M Z :=
  fun st =>
    match fs st !! path with
    | Some c => (Ok (Z.of_nat (length c)), st)
    | None => (Raise OSError, st)
    end.

Definition os_remove (path : pystr) : M unit :=
  fun st =>
    match fs st !! path with
    | Some _ => (Ok tt, {| world := world st; fs := delete path (fs st); trace := trace st |})
    | None => (Raise OSError, st)
    end.

Definition subprocess_run (argv : list pystr) : M CompletedProcess :=
  fun st =>
    let '(w', wr, out) := network (world st) argv in
    let fs' :=
      match curl_output (tail argv), wr with
      | Some p, Some c => <[p := c]> (fs st)
      | _, _ => fs st
      end in
    (out, {| world := w'; fs := fs'; trace := trace st ++ [EvRun argv] |}).

Definition get_argv (url : pystr) : list pystr :=
  [py "curl"; py "-sL"; py "-A"; UA; url].

Definition curl_get (url : pystr) : M pystr :=
  result <- subprocess_run (get_argv url);;
  ret (stdout result).

Definition post_body (atch_file_no file_ord : pystr) : pystr :=
  py "atchFileNo=" ++ atch_file_no ++ py "&fileOrd=" ++ file_ord ++ py "&fileBtn=A".

Definition download_argv (atch_file_no file_ord outpath : pystr) : list pystr :=
  [py "curl"; py "-sL"; py "-A"; UA; py "-d"; post_body atch_file_no file_ord;
   py "-o"; outpath; DOWNLOAD_URL].

Definition curl_download (atch_file_no file_ord outpath : pystr) : M Z :=
  result <- subprocess_run (download_argv atch_file_no file_ord outpath);;
  let cleanup : M Z :=
    e <- os_path_exists outpath;;
    (if e then os_remove outpath else ret tt);;;
    ret 0 in
  usable <- (if returncode result =? 0 then os_path_exists outpath else ret false);;
  if usable
  then size <- os_path_getsize outpath;;
       if size >? 100 then ret size else cleanup
  else cleanup.

(** [re.findall] with a one-group pattern yields the group's text. *)
Definition detail_matches (html : pystr) : list pystr :=
  map (fun g => default [] (head g)) (findall U detail_pattern html).

Definition article_ids_of (html : pystr) : list pystr :=
  list_of_set O (detail_matches html).

Definition get_article_ids (page : Z) : M (list pystr) :=
  html <- curl_get (LIST_URL page);;
  ret (article_ids_of html).

(** With a three-group pattern it yields the tuple of the groups' texts. *)
Definition download_matches (html : pystr) : list (pystr * pystr * pystr) :=
  omap (fun g => match g with [a; o; e] => Some (a, o, e) | _ => None end)
       (findall U download_pattern html).

(** The loop over [matches] with its [seen] set and [files] list. *)
Fixpoint collect_files (matches : list (pystr * pystr * pystr))
    (seen : gset (pystr * pystr * pystr)) (files : list finfo) : list finfo :=
  match matches with
  | [] => files
  | (atch, ord_, ext_) as key :: rest =>
      if decide (key ∉ seen)
      then collect_files rest ({[key]} ∪ seen)
             (files ++ [{| atchFileNo := atch; fileOrd := ord_; ext := ext_ |}])
      else collect_files rest seen files
  end.

Definition file_info_of (html : pystr) : list finfo :=
  collect_files (download_matches html) ∅ [].

Definition get_file_info (ntt_seq_no : pystr) : M (list finfo) :=
  html <- curl_get (VIEW_URL ntt_seq_no);;
  ret (file_info_of html).

(** [downloaded[ext] += 1] *)
Definition tally_incr (downloaded : gmap pystr Z) (e : pystr) : M (gmap pystr Z) :=
  match downloaded !! e with
  | Some n => ret (<[e := n + 1]> downloaded)
  | None => raise KeyError
  end.

Definition outpath_of (dir ntt_id e : pystr) : pystr :=
  os_path_join dir (py "msit-" ++ ntt_id ++ py "." ++ e).

(** The body of [for finfo in files]. *)
Definition download_one (dir : pystr) (delay : float) (ntt_id : pystr) (f : finfo)
    (downloaded : gmap pystr Z) : M (gmap pystr Z) :=
  let e := ext f in
  if bool_decide (e ∉ accepted_exts) then ret downloaded
  else
    let outpath := outpath_of dir ntt_id e in
    present <- os_path_exists outpath;;
    if present then tally_incr downloaded e
    else
      size <- curl_download (atchFileNo f) (fileOrd f) outpath;;
      downloaded' <- (if size =? 0 then ret downloaded else tally_incr downloaded e);;
      time_sleep (delay * 0.5);;;
      ret downloaded'.

(** The body of [for i, ntt_id in enumerate(sorted(all_article_ids))]. *)
Definition process_article (dir : pystr) (delay : float) (ntt_id : pystr)
    (downloaded : gmap pystr Z) : M (gmap pystr Z) :=
  try_except (get_file_info ntt_id)
    (fun files =>
       match files with
       | [] => time_sleep delay;;; ret downloaded
       | _ =>
           downloaded' <- for_each files (download_one dir delay ntt_id) downloaded;;
           time_sleep delay;;;
           ret downloaded'
       end)
    (fun _ => time_sleep delay;;; ret downloaded).

(** The body of [for page in range(1, args.pages + 1)]. *)
Definition scan_page (delay : float) (page : Z) (all_article_ids : list pystr)
  : M (list pystr) :=
  ids' <- try_except (get_article_ids page)
            (fun ids => ret (all_article_ids ++ ids))
            (fun _ => ret all_article_ids);;
  time_sleep delay;;;
  ret ids'.

Definition scan_pages (delay : float) (n : Z) : M (list pystr) :=
  all_article_ids <- for_each (range 1 (n + 1)) (scan_page delay) [];;
  ret (list_of_set O all_article_ids).

Definition initial_tally : gmap pystr Z :=
  <[py "hwp" := 0]> (<[py "hwpx" := 0]> (<[py "odt" := 0]> ∅)).

Definition process_articles (dir : pystr) (delay : float)
    (all_article_ids : list pystr) : M (gmap pystr Z) :=
  for_each (sorted all_article_ids) (process_article dir delay) initial_tally.

(** [main]; the result is the tally the final summary prints. *)
Definition main (a : args) : M (gmap pystr Z) :=
  os_makedirs (outdir a);;;
  all_article_ids <- scan_pages (delay a) (pages a);;
  process_articles (outdir a) (delay a) all_article_ids.

End Program.

Arguments world {World} s.
Arguments fs {World} s.
Arguments trace {World} s.

(** ** A scripted remote host, to run the program on *)

Module Demo.

Definition ascii_only : unicode_db :=
  {| uni_decimal := fun _ => false; uni_space := fun _ => false; uni_alnum := fun _ => false |}.

Definition first_seen : set_order :=
  {| list_of_set := remove_dups;
     list_of_set_NoDup := NoDup_remove_dups;
     list_of_set_elem := fun xs x => elem_of_remove_dups xs x |}.

Definition listing : pystr :=
  py "<a onclick='fn_detail(1001)'>A</a><a href='#' onclick='fn_detail(1001)'>more</a> <a onclick='fn_detail(1002)'>B</a>".

Definition detail_1001 : pystr :=
  py "<a onclick=fn_download('55','1','hwp')>a.hwp</a> <a onclick=fn_download('55', '2', 'pdf')>a.pdf</a> fn_download('55','1','hwp') fn_download('56','1','hwp')".

Definition payload (n : nat) : bytes := repeat Byte.x41 n.

(** The host: page 1 lists two articles and page 2 cannot be fetched;
    article 1001 has three distinct attachments and the page of article 1002
    times out; file 55/1 is a real document and every other download is
    answered with a short error page.  The world counts the requests. *)
Definition host (w : nat) (argv : list pystr) : nat * option bytes * outcome CompletedProcess :=
  let page := {| returncode := 0; stdout := [] |} in
  match argv !! 4%nat, argv !! 5%nat with
  | Some url, None =>
      if decide (url = LIST_URL 1) then (S w, None, Ok {| returncode := 0; stdout := listing |})
      else if decide (url = LIST_URL 2) then (S w, None, Raise OSError)
      else if decide (url = VIEW_URL (py "1001")) then (S w, None, Ok {| returncode := 0; stdout := detail_1001 |})
      else if decide (url = VIEW_URL (py "1002")) then (S w, None, Raise TimeoutExpired)
      else (S w, None, Ok page)
  | _, Some body =>
      if decide (body = py "atchFileNo=55&fileOrd=1&fileBtn=A")
      then (S w, Some (payload 500), Ok page)
      else (S w, Some (payload 50), Ok page)
  | _, _ => (S w, None, Ok {| returncode := 2; stdout := [] |})
  end.

(** The operating system: nothing is too long a sleep, and every
    directory can be created. *)
Definition os (c : oscall) : option exn := None.

Definition start : state nat := {| world := O; fs := ∅; trace := [] |}.

Definition run (a : args) (st : state nat) : outcome (gmap pystr Z) * state nat :=
  main ascii_only first_seen nat host os a st.

Definition cli : args := {| pages := 1; outdir := py "msit-docs"; delay := 1 |}.

Definition hwp_55_1 : finfo :=
  {| atchFileNo := py "55"; fileOrd := py "1"; ext := py "hwp" |}.

Definition pdf_55_2 : finfo :=
  {| atchFileNo := py "55"; fileOrd := py "2"; ext := py "pdf" |}.

Definition hwp_56_1 : finfo :=
  {| atchFileNo := py "56"; fileOrd := py "1"; ext := py "hwp" |}.

End Demo.

(** ** Vocabulary of the statements *)

Section Vocabulary.
Context {World : Type}.
Implicit Types st : state World.

(** Whether the file curl left passes the check of [curl_download], and the
    size reported if it does. *)
Definition usable_size (cp : CompletedProcess) (f : option bytes) : option Z :=
  match f with
  | Some c =>
      if (returncode cp =? 0) && (Z.of_nat (length c) >? 100)
      then Some (Z.of_nat (length c)) else None
  | None => None
  end.

Definition without (p : pystr) st : state World :=
  {| world := world st; fs := delete p (fs st); trace := trace st |}.

(** The events added to the trace between two states. *)
Definition new_events st st' : list event :=
  drop (length (trace st)) (trace st').

(** [ev] is a curl run that writes its response to [p]. *)
Definition writes_to (ev : event) (p : pystr) : Prop :=
  match ev with
  | EvRun argv => curl_output (tail argv) = Some p
  | _ => False
  end.

End Vocabulary.

(** Each element once, at the place of its first occurrence. *)
Fixpoint first_occurrences {A} `{EqDecision A} (l : list A) : list A :=
  match l with
  | [] => []
  | x :: l' => x :: filter (fun y => y <> x) (first_occurrences l')
  end.

(** The classes of the capturing groups of a pattern, in order. *)
Fixpoint group_classes (p : list item) : list cls :=
  match p with
  | [] => []
  | Group k :: p' => k :: group_classes p'
  | _ :: p' => group_classes p'
  end.

(** A captured text: one or more characters of the group's class. *)
Definition captured (U : unicode_db) (k : cls) (cap : pystr) : Prop :=
  cap <> [] /\ Forall (fun c => in_class U k c = true) cap.

(** The list [sorted] returns is ascending for [str_le]. *)
Definition str_leq (a b : pystr) : Prop := str_le a b = true.

(** The URLs fetched with GET (curl runs without an output file), in order. *)
Definition fetched_urls (evs : list event) : list pystr :=
  omap (fun ev =>
          match ev with
          | EvRun argv =>
              match curl_output (tail argv) with
              | None => argv !! 4%nat
              | Some _ => None
              end
          | _ => None
          end) evs.

(** From [st] to [st']: what is at the path [q] is as it was. *)
Definition untouched {World} (q : pystr) (st st' : state World) : Prop :=
  fs st' !! q = fs st !! q.

(** The state after a [time.sleep(secs)] that returned. *)
Definition slept {World} (secs : float) (st : state World) : state World :=
  {| world := world st; fs := fs st; trace := trace st ++ [EvSleep secs] |}.

Section Invariant.
Context {World : Type}.
Implicit Types st : state World.

(** A relation between the state before and the state after that every run
    of [m] establishes, whether [m] returns or raises. *)
Definition preserves (R : state World -> state World -> Prop) {A}
    (m : M World A) : Prop :=
  forall st, R st (m st).2.

(** Every value [m] returns satisfies [P]. *)
Definition returns {A} (P : A -> Prop) (m : M World A) : Prop :=
  forall st a st', m st = (Ok a, st') -> P a.

(** [q] is the output path of some article and accepted extension. *)
Definition is_target (dir q : pystr) : Prop :=
  exists ntt_id e, e ∈ accepted_exts /\ q = outpath_of dir ntt_id e.

(** A curl run that writes a file writes to a target path absent from
    [present]. *)
Definition fresh_download (dir : pystr) (present : gmap pystr bytes)
    (ev : event) : Prop :=
  forall q, writes_to ev q -> present !! q = None /\ is_target dir q.

(** From [st] to [st']: files that exist are left as they are, new files
    are at target paths, and every download goes to a target path that did
    not exist in [st]. *)
Definition grows (dir : pystr) st st' : Prop :=
  (forall q c, fs st !! q = Some c -> fs st' !! q = Some c)
  /\ (forall q, fs st !! q = None -> is_Some (fs st' !! q) -> is_target dir q)
  /\ exists evs, trace st' = trace st ++ evs
                 /\ Forall (fresh_download dir (fs st)) evs.

(** From [st] to [st']: no page was fetched. *)
Definition fetches_nothing st st' : Prop :=
  exists evs, trace st' = trace st ++ evs /\ fetched_urls evs = [].

End Invariant.

(** The tally has a counter for each accepted extension. *)
Definition tally_ok (t : gmap pystr Z) : Prop :=
  forall e, e ∈ accepted_exts -> is_Some (t !! e).

(** Every counter of [t1] is in [t2], and not smaller there. *)
Definition tally_le (t1 t2 : gmap pystr Z) : Prop :=
  forall e n, t1 !! e = Some n -> exists m, t2 !! e = Some m /\ n <= m.

(** The remote host answers a request the same way whenever it is asked. *)
Definition stateless {World : Type}
    (network : World -> list pystr -> World * option bytes * outcome CompletedProcess)
  : Prop :=
  forall w w' argv,
    (network w argv).1.2 = (network w' argv).1.2
    /\ (network w argv).2 = (network w' argv).2.

(** The output path as the specification writes it:
    [<outdir>/msit-<articleId>.<ext>]. *)
Definition slash_path (dir ntt_id e : pystr) : pystr :=
  dir ++ py "/" ++ py "msit-" ++ ntt_id ++ py "." ++ e.

(** The shape of the replay of one loop body: what returned in the first
    run returns in a run started on a file system that has all the files
    the first run ended with, writes nothing, and counts at least as much. *)
Definition replays {World A}
    (body : A -> gmap pystr Z -> M World (gmap pystr Z)) : Prop :=
  forall x t1 s1 t1' s1' t2 s2,
    body x t1 s1 = (Ok t1', s1') ->
    (forall q c, fs s1' !! q = Some c -> fs s2 !! q = Some c) ->
    tally_le t1 t2 -> tally_ok t2 ->
    exists t2' s2',
      body x t2 s2 = (Ok t2', s2')
      /\ fs s2' = fs s2 /\ tally_le t1' t2' /\ tally_ok t2'.

(** ** Vocabulary of the further properties *)

(** A relation between the state before and the state after that every run
    of [m] that returns establishes. *)
Definition completes {World} (R : state World -> state World -> Prop) {A}
    (m : M World A) : Prop :=
  forall st a st', m st = (Ok a, st') -> R st st'.

(** From [st] to [st']: the files of [st] are left as they are and every
    new file has more than 100 bytes. *)
Definition adds_documents {World} (st st' : state World) : Prop :=
  (forall q c, fs st !! q = Some c -> fs st' !! q = Some c)
  /\ (forall q c, fs st !! q = None -> fs st' !! q = Some c ->
        100 < Z.of_nat (length c)).

(** The state after curl has run on [argv] and answered [wr] to the file
    [p]. *)
Definition after_run {World} (st : state World) (w' : World)
    (argv : list pystr) (p : pystr) (wr : option bytes) : state World :=
  {| world := w';
     fs := match wr with Some c => <[p := c]> (fs st) | None => fs st end;
     trace := trace st ++ [EvRun argv] |}.

(** What a pattern matches: [denotes U p w g] when the text [w] is matched
    by the whole of [p] with the groups capturing [g]. *)
Inductive denotes (U : unicode_db) : list item -> pystr -> list pystr -> Prop :=
  | denotes_nil : denotes U [] [] []
  | denotes_lit c p w g :
      denotes U p w g -> denotes U (Lit c :: p) (c :: w) g
  | denotes_star k p ws w g :
      Forall (fun c => in_class U k c = true) ws ->
      denotes U p w g -> denotes U (Star k :: p) (ws ++ w) g
  | denotes_group k p cap w g :
      captured U k cap ->
      denotes U p w g -> denotes U (Group k :: p) (cap ++ w) (cap :: g).

(** More scripted hosts: one whose downloads time out after seven bytes,
    one whose curl always exits 0 without output, one whose curl always
    exits 7 (connection refused) without output, one on which curl cannot
    be started. *)
Module Faulty.

Definition host (w : nat) (argv : list pystr)
  : nat * option bytes * outcome CompletedProcess :=
  match argv !! 5%nat with
  | Some _ => (S w, Some (Demo.payload 7), Raise TimeoutExpired)
  | None => Demo.host w argv
  end.

Definition silent (w : nat) (argv : list pystr)
  : nat * option bytes * outcome CompletedProcess :=
  (S w, None, Ok {| returncode := 0; stdout := [] |}).

Definition refused (w : nat) (argv : list pystr)
  : nat * option bytes * outcome CompletedProcess :=
  (S w, None, Ok {| returncode := 7; stdout := [] |}).


Definition with_file : state nat :=
  {| world := O;
     fs := {[ py "msit-docs/msit-1001.hwp" := Demo.payload 500 ]};
     trace := [] |}.

End Faulty.

(** ** The monad *)

Section MonadFacts.
Context {World : Type}.
Implicit Types st : state World.

Lemma bind_ok {A B} (m : M World A) (k : A -> M World B) st a st' :
  m st = (Ok a, st') -> bind World m k st = k a st'.
Proof. intros H. unfold bind. by rewrite H. Qed.

Lemma bind_raise {A B} (m : M World A) (k : A -> M World B) st e st' :
  m st = (Raise e, st') -> bind World m k st = (Raise e, st').
Proof. intros H. unfold bind. by rewrite H. Qed.

Lemma for_each_app {A S} (l1 l2 : list A) (body : A -> S -> M World S) acc st :
  for_each World (l1 ++ l2) body acc st
  = bind World (for_each World l1 body acc) (for_each World l2 body) st.
Proof.
  revert acc st. induction l1 as [|x l1 IH]; intros acc st; simpl.
  - done.
  - unfold bind in *. destruct (body x acc st) as [[acc'|e] st']; [apply IH | done].
Qed.

End MonadFacts.

(** ** [curl_download] *)

Section Download.
Context {World : Type}.
Variable network : World -> list pystr -> World * option bytes * outcome CompletedProcess.
Variable os_error : oscall -> option exn.
Implicit Types st : state World.

Lemma curl_output_download a o p :
  curl_output (tail (download_argv a o p)) = Some p.
Proof. reflexivity. Qed.

Lemma curl_output_get url : curl_output (tail (get_argv url)) = None.
Proof. reflexivity. Qed.

Lemma curl_download_unfold a o p st :
  curl_download World network a o p st =
  match subprocess_run World network (download_argv a o p) st with
  | (Raise e, st1) => (Raise e, st1)
  | (Ok cp, st1) =>
      match usable_size cp (fs st1 !! p) with
      | Some n => (Ok n, st1)
      | None => (Ok 0, without p st1)
      end
  end.
Proof.
  unfold curl_download, bind.
  destruct (subprocess_run _ _ _ st) as [[cp|e] st1]; [|done].
  unfold usable_size, os_path_exists, os_path_getsize, os_remove, ret, without.
  destruct (returncode cp =? 0); destruct (fs st1 !! p) as [c|] eqn:Hp;
    try destruct (Z.of_nat (length c) >? 100) eqn:Hsz;
    repeat (cbv beta iota zeta;
            first [ rewrite Hp | rewrite Hsz
                  | rewrite bool_decide_true by eauto
                  | rewrite bool_decide_false by (by intros [? ?]) ]);
    simpl; try done;
    destruct st1; simpl in *; by rewrite delete_id.
Qed.

Lemma usable_size_Some cp f n :
  usable_size cp f = Some n <->
  returncode cp = 0 /\ exists c, f = Some c /\ n = Z.of_nat (length c) /\ 100 < n.
Proof.
  unfold usable_size. destruct f as [c|].
  - destruct (Z.eqb_spec (returncode cp) 0) as [Hrc|Hrc]; simpl.
    + destruct (Z.gtb_spec (Z.of_nat (length c)) 100) as [Hgt|Hle].
      * split.
        -- intros [= <-]. eauto 10 with lia.
        -- intros (_ & c' & [= <-] & -> & _). done.
      * split; [done|]. intros (_ & c' & [= <-] & -> & ?). lia.
    + split; [done|]. intros [? _]. done.
  - split; [done|]. intros (_ & c & ? & _). done.
Qed.

(** C1: [curl_download] reports a nonzero byte count exactly when curl
    exited with status 0 and the file then found at the target path is
    strictly larger than 100 bytes.  A 50-byte file is a failure (0 is
    returned and the file is removed); a 500-byte file is a success (500 is
    returned and the file stays). *)
Theorem curl_download_success_iff a o p st :
  let attempt := subprocess_run World network (download_argv a o p) st in
  let result := curl_download World network a o p st in
  ((exists n, result.1 = Ok n /\ n <> 0) <->
   (exists cp c, attempt.1 = Ok cp /\ returncode cp = 0
                 /\ fs attempt.2 !! p = Some c /\ 100 < Z.of_nat (length c)))
  /\ (forall cp c, attempt.1 = Ok cp -> returncode cp = 0 ->
        fs attempt.2 !! p = Some c -> length c = 50%nat ->
        result.1 = Ok 0 /\ fs result.2 !! p = None)
  /\ (forall cp c, attempt.1 = Ok cp -> returncode cp = 0 ->
        fs attempt.2 !! p = Some c -> length c = 500%nat ->
        result.1 = Ok 500 /\ fs result.2 !! p = Some c).
Proof.
  intros attempt result. subst attempt result.
  rewrite curl_download_unfold.
  destruct (subprocess_run _ _ _ st) as [[cp|e] st1]; simpl.
  - destruct (usable_size cp (fs st1 !! p)) as [n|] eqn:Hu; simpl.
    + apply usable_size_Some in Hu as (Hrc & c & Hc & -> & Hgt).
      split; [|split].
      * split; [|eauto with lia]. intros _. exists cp, c. eauto.
      * intros ? c' [= <-] _ Hc' Hlen. rewrite Hc in Hc'. simplify_eq. lia.
      * intros ? c' [= <-] _ Hc' Hlen. rewrite Hc in Hc'. simplify_eq.
        rewrite Hlen. done.
    + split; [|split].
      * split; [intros (n & [= <-] & ?); done|].
        intros (cp' & c & [= <-] & Hrc & Hc & Hgt).
        assert (usable_size cp (fs st1 !! p) = Some (Z.of_nat (length c))) as Hs
          by (apply usable_size_Some; eauto 10).
        congruence.
      * intros. split; [done|]. apply lookup_delete_eq.
      * intros ? c [= <-] Hrc Hc Hlen.
        assert (usable_size cp (fs st1 !! p) = Some (Z.of_nat (length c))) as Hs
          by (apply usable_size_Some; split; [done|]; exists c; split_and!; [done..|lia]).
        congruence.
  - split; [|split].
    + split; [intros (n & ? & _); done | intros (cp & c & ? & _); done].
    + intros; done.
    + intros; done.
Qed.

(** C2, as the program has it: when [subprocess.run] returns, whatever the
    exit status of curl, [curl_download] returns either the exact size of
    the file now at the target path, which exceeds 100, or 0 with no file
    left at the target path; every failed attempt of this kind (nonzero exit
    status, no output file, or a file of at most 100 bytes) is of the second
    kind, a value strictly between 0 and 101 is never returned, and no other
    path is touched by the clean-up.  When [subprocess.run] raises (the
    timeout, an [OSError]), [curl_download] raises the same exception:
    nothing is returned and nothing is removed, so what curl wrote stays at
    the target path. *)
Theorem curl_download_cleanup a o p st :
  let attempt := subprocess_run World network (download_argv a o p) st in
  let result := curl_download World network a o p st in
  (forall cp,
     attempt.1 = Ok cp ->
     exists n, result.1 = Ok n
       /\ ((100 < n /\ exists c, fs result.2 !! p = Some c /\ n = Z.of_nat (length c))
           \/ (n = 0 /\ fs result.2 !! p = None))
       /\ ((returncode cp <> 0 \/ fs attempt.2 !! p = None
            \/ (exists c, fs attempt.2 !! p = Some c /\ Z.of_nat (length c) <= 100)) ->
           n = 0 /\ fs result.2 !! p = None)
       /\ ~ (0 < n < 101)
       /\ (forall q, q <> p -> fs result.2 !! q = fs attempt.2 !! q))
  /\ (forall e,
        attempt.1 = Raise e ->
        result = (Raise e, attempt.2)
        /\ fs result.2 !! p
           = match (network (world st) (download_argv a o p)).1.2 with
             | Some c => Some c
             | None => fs st !! p
             end).
Proof.
  intros attempt result. subst attempt result.
  rewrite curl_download_unfold. split.
  - intros cp.
    destruct (subprocess_run _ _ _ st) as [[cp'|e] st1]; simpl; [|done].
    intros [= ->].
    destruct (usable_size cp (fs st1 !! p)) as [n|] eqn:Hu; simpl.
    + apply usable_size_Some in Hu as (Hrc & c & Hc & -> & Hgt).
      exists (Z.of_nat (length c)). split_and!; [done| left; eauto | | lia | done].
      intros [?|[Hn|(c' & Hc' & ?)]]; [done|congruence|].
      rewrite Hc in Hc'. simplify_eq. lia.
    + exists 0. rewrite lookup_delete_eq.
      split_and!; [done | by right | done | lia |].
      intros q Hq. by apply lookup_delete_ne.
  - intros e. unfold subprocess_run. rewrite curl_output_download.
    destruct (network (world st) (download_argv a o p)) as [[w' wr] out].
    cbn [fst snd]. intros ->. split; [done|]. cbn [fs snd].
    destruct wr; [apply lookup_insert_eq|done].
Qed.

End Download.

(** A run of [curl_download] against the scripted host: the 500-byte
    document is kept and its size reported. *)
Lemma curl_download_success_iff_witness :
  (curl_download nat Demo.host (py "55") (py "1") (py "msit-docs/msit-1001.hwp") Demo.start).1
  = Ok 500.
Proof.
  apply (proj1 (proj2 (proj2 (curl_download_success_iff Demo.host (py "55") (py "1")
           (py "msit-docs/msit-1001.hwp") Demo.start))
           {| returncode := 0; stdout := [] |} (Demo.payload 500)
           eq_refl eq_refl eq_refl eq_refl)).
Defined.

(** A failed attempt against the scripted host: the 50-byte answer is
    removed and 0 returned. *)
Lemma curl_download_cleanup_witness :
  exists n,
    (curl_download nat Demo.host (py "56") (py "1") (py "msit-docs/msit-1001.hwp") Demo.start).1 = Ok n
    /\ n = 0.
Proof.
  destruct (curl_download_cleanup Demo.host (py "56") (py "1")
              (py "msit-docs/msit-1001.hwp") Demo.start) as [Hreturned _].
  destruct (Hreturned {| returncode := 0; stdout := [] |} eq_refl)
    as (n & Hn & _ & Hfail & _).
  exists n. split; [exact Hn|].
  apply Hfail. right. right. exists (Demo.payload 50). split; [reflexivity|].
  vm_compute. discriminate.
Defined.

(** A download that times out after curl has written seven bytes: nothing
    is returned, and the seven bytes are left at the target path. *)
Lemma curl_download_timeout_keeps_file :
  curl_download nat Faulty.host (py "55") (py "1") (py "msit-docs/msit-1001.hwp")
    Demo.start
  = (Raise TimeoutExpired,
     {| world := 1%nat;
        fs := <[py "msit-docs/msit-1001.hwp" := Demo.payload 7]> ∅;
        trace := [EvRun (download_argv (py "55") (py "1")
                           (py "msit-docs/msit-1001.hwp"))] |})
  /\ fs (curl_download nat Faulty.host (py "55") (py "1")
           (py "msit-docs/msit-1001.hwp") Demo.start).2
       !! py "msit-docs/msit-1001.hwp" = Some (Demo.payload 7).
Proof. split; reflexivity. Qed.

(** ** The extractors *)

Section Extract.
Variable U : unicode_db.

Lemma match_here_captured p s g n :
  match_here U p s = Some (g, n) -> Forall2 (captured U) (group_classes p) g.
Proof.
  revert s g n. induction p as [|[c|k|k] p IH]; intros s g n.
  - intros [= <- <-]. constructor.
  - simpl. destruct s as [|x s]; [done|].
    destruct (x =? c)%N; [|done].
    destruct (match_here U p s) as [[g' n']|] eqn:Hm; [|done].
    intros [= <- <-]. eauto.
  - revert g n. induction s as [|x s IHs]; intros g n; simpl in *.
    + apply IH.
    + destruct (in_class U k x); [|apply IH].
      destruct ((fix star (s : pystr) := _) s) as [[g' n']|] eqn:Hs.
      * intros [= <- <-]. eauto.
      * apply IH.
  - simpl.
    destruct ((fix more (s : pystr) := _) s) as [[[cap g'] n']|] eqn:Hmore; [|done].
    intros [= <- <-]. constructor.
    + clear IH. revert cap g' n' Hmore. induction s as [|x s IHs]; intros cap g' n'; [done|].
      destruct (in_class U k x) eqn:Hx; [|done].
      destruct ((fix more (s : pystr) := _) s) as [[[cap1 g1] n1]|] eqn:Hs.
      * intros [= <- <- <-]. destruct (IHs _ _ _ eq_refl) as [_ Hall].
        split; [done|]. by constructor.
      * destruct (match_here U p s) as [[g1 n1]|]; [|done].
        intros [= <- <- <-]. split; [done|]. by repeat constructor.
    + revert cap g' n' Hmore. induction s as [|x s IHs]; intros cap g' n'; [done|].
      destruct (in_class U k x) eqn:Hx; [|done].
      destruct ((fix more (s : pystr) := _) s) as [[[cap1 g1] n1]|] eqn:Hs.
      * intros [= <- <- <-]. eauto.
      * destruct (match_here U p s) as [[g1 n1]|] eqn:Hm; [|done].
        intros [= <- <- <-]. eauto.
Qed.

Lemma findall_from_matches p skip s g :
  g ∈ findall_from U p skip s -> exists s' n, match_here U p s' = Some (g, n).
Proof.
  revert skip. induction s as [|x s IH]; intros skip; simpl.
  - by intros ?%elem_of_nil.
  - destruct skip as [|k]; [|apply IH].
    destruct (match_here U p (x :: s)) as [[g' n]|] eqn:Hm; [|apply IH].
    intros [->|Hin]%elem_of_cons; eauto.
Qed.

Lemma detail_matches_numeric html id :
  id ∈ detail_matches U html -> captured U Digit id.
Proof.
  unfold detail_matches, findall. intros (g & -> & Hg)%list_elem_of_fmap.
  apply findall_from_matches in Hg as (s' & n & Hm).
  apply match_here_captured in Hm.
  change (group_classes detail_pattern) with [Digit] in Hm.
  apply Forall2_cons_inv_l in Hm as (cap & g' & Hcap & Hnil & ->).
  done.
Qed.

Lemma download_matches_length html :
  length (download_matches U html) = length (findall U download_pattern html).
Proof.
  unfold download_matches, findall.
  assert (forall g, g ∈ findall_from U download_pattern 0 html ->
                    exists a o e, g = [a; o; e]) as Hall.
  { intros g (s' & n & Hm)%findall_from_matches.
    apply match_here_captured in Hm.
    change (group_classes download_pattern) with [Digit; Digit; Word] in Hm.
    apply Forall2_length in Hm.
    destruct g as [|a [|o [|e [|]]]]; try discriminate Hm. eauto. }
  induction (findall_from U download_pattern 0 html) as [|g l IH]; [done|].
  destruct (Hall g) as (a & o & e & ->); [by left|].
  simpl. f_equal. apply IH. intros g' Hg'. apply Hall. by right.
Qed.

End Extract.

Section FirstOccurrences.
Context {A : Type} `{EqDecision A}.
Implicit Types l : list A.

Lemma filter_all (P : A -> Prop) `{!forall x, Decision (P x)} l :
  (forall x, x ∈ l -> P x) -> filter P l = l.
Proof.
  induction l as [|x l IH]; intros Hall; [done|].
  rewrite filter_cons_True by (apply Hall; by left).
  f_equal. apply IH. intros y Hy. apply Hall. by right.
Qed.

Lemma first_occurrences_filter (P : A -> Prop) `{!forall x, Decision (P x)} l :
  filter P (first_occurrences l) = first_occurrences (filter P l).
Proof.
  induction l as [|x l IH]; [done|].
  simpl. rewrite !filter_cons. destruct (decide (P x)); simpl.
  - rewrite <- IH. f_equal. rewrite !list_filter_filter.
    apply list_filter_iff. tauto.
  - rewrite <- IH. rewrite list_filter_filter.
    apply list_filter_iff. intros y. split; [tauto|].
    intros Hy. split; [done|]. by intros ->.
Qed.

Lemma first_occurrences_elem l x : x ∈ first_occurrences l <-> x ∈ l.
Proof.
  induction l as [|y l IH]; [done|].
  simpl. rewrite !elem_of_cons, list_elem_of_filter, IH.
  destruct (decide (x = y)); naive_solver.
Qed.

Lemma first_occurrences_NoDup l : NoDup (first_occurrences l).
Proof.
  induction l as [|y l IH]; simpl; constructor.
  - rewrite list_elem_of_filter. naive_solver.
  - by apply NoDup_filter.
Qed.

Lemma first_occurrences_app l1 l2 :
  first_occurrences (l1 ++ l2)
  = first_occurrences l1 ++ filter (fun y => y ∉ l1) (first_occurrences l2).
Proof.
  induction l1 as [|x l1 IH]; simpl.
  - symmetry. apply filter_all. intros y _. apply not_elem_of_nil.
  - f_equal. rewrite IH, filter_app. f_equal.
    rewrite list_filter_filter. apply list_filter_iff.
    intros y. rewrite not_elem_of_cons. tauto.
Qed.

End FirstOccurrences.

Section Collect.
Variable U : unicode_db.

Lemma collect_files_spec matches seen files :
  map triple_of (collect_files matches seen files)
  = map triple_of files
    ++ first_occurrences (filter (fun k => k ∉ seen) matches).
Proof.
  revert seen files. induction matches as [|[[a o] e] rest IH]; intros seen files; simpl.
  - by rewrite app_nil_r.
  - rewrite filter_cons. destruct (decide ((a, o, e) ∉ seen)) as [Hnew|Hold].
    + rewrite IH, map_app, <- app_assoc. simpl. do 2 f_equal.
      rewrite first_occurrences_filter, list_filter_filter.
      f_equal. apply list_filter_iff. intros k. set_solver.
    + apply IH.
Qed.

Lemma file_info_of_spec html :
  map triple_of (file_info_of U html) = first_occurrences (download_matches U html).
Proof.
  unfold file_info_of. rewrite collect_files_spec. simpl. f_equal.
  apply filter_all. intros k _. set_solver.
Qed.

End Collect.

Section Extractors.
Variable U : unicode_db.
Variable O : set_order.
Context {World : Type}.
Variable network : World -> list pystr -> World * option bytes * outcome CompletedProcess.
Variable os_error : oscall -> option exn.
Implicit Types st : state World.

(** C3: [get_file_info] returns the descriptors matched by the fn_download
    pattern with repeated triples collapsed to their first occurrence: the
    triples are [first_occurrences] of the matches, no triple is repeated,
    the triples are exactly the matched ones, what a prefix of the matches
    yields is a prefix of the result, and markup with no match yields the
    empty list. *)
Theorem get_file_info_first_occurrences ntt st html st' :
  curl_get World network (VIEW_URL ntt) st = (Ok html, st') ->
  exists files,
    get_file_info U World network ntt st = (Ok files, st')
    /\ map triple_of files = first_occurrences (download_matches U html)
    /\ NoDup (map triple_of files)
    /\ (forall k, k ∈ map triple_of files <-> k ∈ download_matches U html)
    /\ (forall l1 l2, download_matches U html = l1 ++ l2 ->
          exists rest, map triple_of files = first_occurrences l1 ++ rest)
    /\ (download_matches U html = [] -> files = []).
Proof.
  intros Hget. exists (file_info_of U html).
  split; [unfold get_file_info; by rewrite (bind_ok _ _ _ _ _ Hget)|].
  rewrite file_info_of_spec.
  split_and!.
  - done.
  - apply first_occurrences_NoDup.
  - apply first_occurrences_elem.
  - intros l1 l2 ->. rewrite first_occurrences_app. eauto.
  - intros Hnone. pose proof (file_info_of_spec U html) as Hspec.
    rewrite Hnone in Hspec. by apply fmap_nil_inv in Hspec.
Qed.

(** C4: [get_article_ids] returns the identifiers matched by the
    fn_detail pattern as a set: no identifier twice, exactly the matched
    ones, as many as there are distinct matches, each a nonempty string of
    digits; markup with fn_detail(1001) twice and fn_detail(1002) once
    yields the two identifiers 1001 and 1002. *)
Theorem get_article_ids_distinct page st html st' :
  curl_get World network (LIST_URL page) st = (Ok html, st') ->
  exists ids,
    get_article_ids U O World network page st = (Ok ids, st')
    /\ NoDup ids
    /\ (forall x, x ∈ ids <-> x ∈ detail_matches U html)
    /\ length ids = size (list_to_set (detail_matches U html) : gset pystr)
    /\ Forall (captured U Digit) ids
    /\ (html = Demo.listing -> ids ≡ₚ [py "1001"; py "1002"]).
Proof.
  intros Hget. exists (article_ids_of U O html).
  split; [unfold get_article_ids; by rewrite (bind_ok _ _ _ _ _ Hget)|].
  unfold article_ids_of.
  pose proof (list_of_set_NoDup O (detail_matches U html)) as Hnd.
  pose proof (list_of_set_elem O (detail_matches U html)) as Hel.
  split_and!.
  - done.
  - done.
  - rewrite <- (size_list_to_set (C:=gset pystr) _ Hnd).
    f_equal. apply set_eq. intros x. rewrite !elem_of_list_to_set. apply Hel.
  - apply Forall_forall. intros id Hid. apply (detail_matches_numeric U html).
    by apply Hel.
  - intros ->.
    assert (detail_matches U Demo.listing = [py "1001"; py "1001"; py "1002"]) as Hm
      by (vm_compute; reflexivity).
    assert (py "1001" <> py "1002") as Hne by discriminate.
    rewrite Hm in Hel, Hnd |- *. revert Hne Hel Hnd.
    generalize (py "1001") (py "1002"). intros a b Hne Hel Hnd.
    apply NoDup_Permutation.
    + done.
    + apply NoDup_cons. split; [|apply NoDup_singleton].
      by intros ->%list_elem_of_singleton.
    + intros x. rewrite Hel, !elem_of_cons. tauto.
Qed.

End Extractors.

(** The detail page of article 1001 on the scripted host: three distinct
    descriptors out of four matches. *)
Lemma get_file_info_first_occurrences_witness :
  exists files,
    get_file_info Demo.ascii_only nat Demo.host (py "1001") Demo.start
      = (Ok files, {| world := 1%nat; fs := ∅;
                      trace := [EvRun (get_argv (VIEW_URL (py "1001")))] |})
    /\ map triple_of files
       = [(py "55", py "1", py "hwp"); (py "55", py "2", py "pdf");
          (py "56", py "1", py "hwp")].
Proof.
  destruct (get_file_info_first_occurrences Demo.ascii_only Demo.host (py "1001")
              Demo.start Demo.detail_1001 _ eq_refl)
    as (files & Hrun & Hfiles & _).
  exists files. split; [exact Hrun|]. rewrite Hfiles. reflexivity.
Defined.

(** The first listing page of the scripted host. *)
Lemma get_article_ids_distinct_witness :
  exists ids,
    get_article_ids Demo.ascii_only Demo.first_seen nat Demo.host 1 Demo.start
      = (Ok ids, {| world := 1%nat; fs := ∅;
                    trace := [EvRun (get_argv (LIST_URL 1))] |})
    /\ ids ≡ₚ [py "1001"; py "1002"].
Proof.
  destruct (get_article_ids_distinct Demo.ascii_only Demo.first_seen Demo.host 1
              Demo.start Demo.listing _ eq_refl)
    as (ids & Hrun & _ & _ & _ & _ & Hex).
  exists ids. split; [exact Hrun|]. apply Hex. reflexivity.
Defined.

(** ** [sorted] *)

Section Sorted.

Lemma str_le_refl a : str_leq a a.
Proof.
  unfold str_leq. induction a as [|x a IH]; [done|].
  simpl. rewrite N.eqb_refl, IH. apply orb_true_r.
Qed.

Lemma str_le_total a b : str_leq a b \/ str_leq b a.
Proof.
  unfold str_leq. revert b. induction a as [|x a IH]; intros [|y b]; simpl; auto.
  destruct (N.ltb_spec x y); [by left|].
  destruct (N.ltb_spec y x); [by right|].
  assert (x = y) as -> by lia. rewrite N.eqb_refl. simpl. apply IH.
Qed.

Lemma str_le_antisym a b : str_leq a b -> str_leq b a -> a = b.
Proof.
  unfold str_leq. revert b. induction a as [|x a IH]; intros [|y b]; simpl; try done.
  destruct (N.ltb_spec x y), (N.ltb_spec y x); simpl; try lia.
  - destruct (N.eqb_spec y x); [lia|done].
  - destruct (N.eqb_spec x y); [lia|done].
  - destruct (N.eqb_spec x y) as [->|]; [|done]. rewrite N.eqb_refl. simpl.
    intros Hab Hba. f_equal. by apply IH.
Qed.

Lemma str_le_trans a b c : str_leq a b -> str_leq b c -> str_leq a c.
Proof.
  unfold str_leq. revert b c.
  induction a as [|x a IH]; intros [|y b] [|z c]; simpl; try done.
  destruct (N.ltb_spec x y), (N.ltb_spec y z), (N.ltb_spec x z); simpl; try done; try lia.
  - destruct (N.eqb_spec y z); [lia|done].
  - destruct (N.eqb_spec x y); [lia|done].
  - destruct (N.eqb_spec x y) as [->|]; [|done].
    destruct (N.eqb_spec y z) as [->|]; [|done]. simpl.
    destruct (N.eqb_spec z z); [|done]. simpl. apply IH.
Qed.

#[local] Instance str_leq_trans : Transitive str_leq.
Proof. intros a b c. apply str_le_trans. Qed.

#[local] Instance str_leq_antisym : AntiSymm (=) str_leq.
Proof. intros a b. apply str_le_antisym. Qed.

Lemma insert_sorted_perm x l : insert_sorted x l ≡ₚ x :: l.
Proof.
  induction l as [|y l IH]; [done|].
  simpl. destruct (str_le x y); [done|].
  rewrite IH. apply Permutation_swap.
Qed.

Lemma sorted_perm l : sorted l ≡ₚ l.
Proof.
  induction l as [|x l IH]; [done|].
  unfold sorted in *. simpl. by rewrite insert_sorted_perm, IH.
Qed.

Lemma insert_sorted_StronglySorted x l :
  StronglySorted str_leq l -> StronglySorted str_leq (insert_sorted x l).
Proof.
  induction l as [|y l IH]; intros Hl; simpl.
  - by repeat constructor.
  - apply StronglySorted_inv in Hl as [Hl Hy].
    destruct (str_le x y) eqn:Hxy.
    + constructor; [by constructor|].
      constructor; [done|].
      eapply Forall_impl; [exact Hy|]. intros z Hz. by transitivity y.
    + constructor; [by apply IH|].
      rewrite insert_sorted_perm. constructor; [|done].
      destruct (str_le_total x y) as [H|H]; [|done].
      unfold str_leq in H. congruence.
Qed.

Lemma sorted_StronglySorted l : StronglySorted str_leq (sorted l).
Proof.
  induction l as [|x l IH]; [constructor|].
  by apply insert_sorted_StronglySorted.
Qed.

Lemma sorted_unique l l' : l ≡ₚ l' -> sorted l = sorted l'.
Proof.
  intros Hperm. apply (StronglySorted_unique str_leq).
  - apply sorted_StronglySorted.
  - apply sorted_StronglySorted.
  - by rewrite !sorted_perm.
Qed.

End Sorted.

(** ** Invariants of the loops *)

Section Preserves.
Context {World : Type}.
Variable R : state World -> state World -> Prop.
Context `{!PreOrder R}.
Implicit Types st : state World.

Lemma preserves_ret {A} (a : A) : preserves R (ret World a).
Proof. intros st. reflexivity. Qed.

Lemma preserves_raise {A} e : preserves R (raise World (A:=A) e).
Proof. intros st. reflexivity. Qed.

Lemma preserves_bind {A B} (m : M World A) (k : A -> M World B) :
  preserves R m -> (forall a, preserves R (k a)) -> preserves R (bind World m k).
Proof.
  intros Hm Hk st. specialize (Hm st). unfold bind.
  destruct (m st) as [[a|e] st1]; simpl in *; [|done].
  etrans; [exact Hm|apply Hk].
Qed.

Lemma preserves_try_except {A B} (m : M World A) (k : A -> M World B) h :
  preserves R m -> (forall a, preserves R (k a)) -> (forall e, preserves R (h e)) ->
  preserves R (try_except World m k h).
Proof.
  intros Hm Hk Hh st. specialize (Hm st). unfold try_except.
  destruct (m st) as [[a|e] st1]; simpl in *.
  - etrans; [exact Hm|apply Hk].
  - destruct (is_Exception e); [|done]. etrans; [exact Hm|apply Hh].
Qed.

Lemma preserves_for_each {A S} (l : list A) (body : A -> S -> M World S) acc :
  (forall x a, preserves R (body x a)) -> preserves R (for_each World l body acc).
Proof.
  intros Hbody. revert acc. induction l as [|x l IH]; intros acc; simpl.
  - apply preserves_ret.
  - apply preserves_bind; [apply Hbody|apply IH].
Qed.

Lemma preserves_tally_incr t e : preserves R (tally_incr World t e).
Proof.
  unfold tally_incr. destruct (t !! e); [apply preserves_ret|apply preserves_raise].
Qed.

Lemma preserves_os_path_exists p : preserves R (os_path_exists World p).
Proof. intros st. reflexivity. Qed.

End Preserves.

Section Grows.
Context {World : Type}.
Variable network : World -> list pystr -> World * option bytes * outcome CompletedProcess.
Variable os_error : oscall -> option exn.
Variable dir : pystr.
Variable delay : float.
Implicit Types st : state World.

Lemma subprocess_run_get url st :
  subprocess_run World network (get_argv url) st =
  ((network (world st) (get_argv url)).2,
   {| world := (network (world st) (get_argv url)).1.1;
      fs := fs st;
      trace := trace st ++ [EvRun (get_argv url)] |}).
Proof.
  unfold subprocess_run. rewrite curl_output_get.
  by destruct (network (world st) (get_argv url)) as [[w' wr] out].
Qed.

Lemma subprocess_run_download a o p st :
  subprocess_run World network (download_argv a o p) st =
  ((network (world st) (download_argv a o p)).2,
   {| world := (network (world st) (download_argv a o p)).1.1;
      fs := match (network (world st) (download_argv a o p)).1.2 with
            | Some c => <[p := c]> (fs st)
            | None => fs st
            end;
      trace := trace st ++ [EvRun (download_argv a o p)] |}).
Proof.
  unfold subprocess_run. rewrite curl_output_download.
  by destruct (network (world st) (download_argv a o p)) as [[w' wr] out].
Qed.

Lemma grows_refl st : grows dir st st.
Proof.
  split_and!; [done| |].
  - intros q Hq [c Hc]. congruence.
  - exists []. by rewrite app_nil_r.
Qed.

Lemma fresh_download_mono present present' ev :
  (forall q, present !! q = None -> present' !! q = None) ->
  fresh_download dir present ev -> fresh_download dir present' ev.
Proof. intros Hsub Hev q Hq. destruct (Hev q Hq). auto. Qed.

Lemma grows_trans st1 st2 st3 :
  grows dir st1 st2 -> grows dir st2 st3 -> grows dir st1 st3.
Proof.
  intros (Hkeep1 & Hnew1 & evs1 & Htr1 & Hev1) (Hkeep2 & Hnew2 & evs2 & Htr2 & Hev2).
  split_and!.
  - eauto.
  - intros q Hq Hq3. destruct (fs st2 !! q) as [c|] eqn:Hq2; eauto.
  - exists (evs1 ++ evs2). rewrite Htr2, Htr1, app_assoc. split; [done|].
    apply Forall_app. split; [done|].
    eapply Forall_impl; [exact Hev2|]. intros ev. apply fresh_download_mono.
    intros q Hq. destruct (fs st1 !! q) as [c|] eqn:Hq1; [|done].
    apply Hkeep1 in Hq1. congruence.
Qed.

#[global] Instance grows_preorder : PreOrder (grows (World:=World) dir).
Proof. split; [intros st; apply grows_refl | intros ? ? ?; apply grows_trans]. Qed.

Lemma grows_log ev :
  (forall q, ~ writes_to ev q) -> preserves (grows dir) (log World ev).
Proof.
  intros Hev st. simpl. split_and!; [done| |].
  - intros q Hq [c Hc]. simpl in Hc. congruence.
  - exists [ev]. split; [done|]. constructor; [|done].
    intros q Hq. by destruct (Hev q).
Qed.

Lemma grows_curl_get url : preserves (grows dir) (curl_get World network url).
Proof.
  apply preserves_bind; [apply grows_preorder| |intros; by apply preserves_ret, grows_preorder].
  intros st. rewrite subprocess_run_get. simpl. split_and!; [done| |].
  - intros q Hq [c Hc]. simpl in Hc. congruence.
  - exists [EvRun (get_argv url)]. split; [done|]. constructor; [|done].
    intros q Hq. unfold writes_to in Hq. by rewrite curl_output_get in Hq.
Qed.

Lemma grows_curl_download a o p st :
  fs st !! p = None -> is_target dir p ->
  grows dir st (curl_download World network a o p st).2.
Proof.
  intros Hp Htarget. rewrite curl_download_unfold, subprocess_run_download.
  unfold without.
  assert (Forall (fresh_download dir (fs st)) [EvRun (download_argv a o p)]) as Hev.
  { constructor; [|done]. intros q Hq. unfold writes_to in Hq.
    rewrite curl_output_download in Hq. by simplify_eq. }
  destruct (network (world st) (download_argv a o p)) as [[w' wr] out].
  assert (forall q c, fs st !! q = Some c ->
            match wr with Some c' => <[p:=c']> (fs st) | None => fs st end !! q = Some c)
    as Hkeep.
  { intros q c Hq. destruct wr; [|done]. rewrite lookup_insert_ne; [done|congruence]. }
  assert (forall q, q <> p ->
            match wr with Some c' => <[p:=c']> (fs st) | None => fs st end !! q = fs st !! q)
    as Hother.
  { intros q Hq. destruct wr; [|done]. by rewrite lookup_insert_ne. }
  destruct out as [cp|e]; simpl.
  - destruct (usable_size cp _); simpl.
    + split_and!; [done| |eauto].
      intros q Hq [c Hc]. destruct (decide (q = p)) as [->|Hne]; [done|].
      cbn [fs] in Hc. rewrite Hother in Hc by done. congruence.
    + split_and!; [| |eauto].
      * intros q c Hq. cbn [fs]. rewrite lookup_delete_ne by congruence. by apply Hkeep.
      * intros q Hq [c Hc]. destruct (decide (q = p)) as [->|Hne]; [done|].
        cbn [fs] in Hc. rewrite lookup_delete_ne, Hother in Hc by done. congruence.
  - split_and!; [done| |eauto].
    intros q Hq [c Hc]. destruct (decide (q = p)) as [->|Hne]; [done|].
    cbn [fs] in Hc. rewrite Hother in Hc by done. congruence.
Qed.

End Grows.

Section ProgramGrows.
Variable U : unicode_db.
Variable O : set_order.
Context {World : Type}.
Variable network : World -> list pystr -> World * option bytes * outcome CompletedProcess.
Variable os_error : oscall -> option exn.
Variable dir : pystr.
Variable delay : float.
Implicit Types st : state World.

Lemma preserves_at {A B} (R : state World -> state World -> Prop) `{!PreOrder R}
    (m : M World A) (k : A -> M World B) st :
  R st (m st).2 -> (forall a, preserves R (k a)) -> R st (bind World m k st).2.
Proof.
  intros Hm Hk. unfold bind. destruct (m st) as [[a|e] st1]; simpl in *; [|done].
  etrans; [exact Hm|apply Hk].
Qed.

Lemma outpath_is_target ntt_id e :
  e ∈ accepted_exts -> is_target dir (outpath_of dir ntt_id e).
Proof. intros He. by exists ntt_id, e. Qed.

Lemma grows_time_sleep secs :
  preserves (grows dir) (time_sleep World os_error secs).
Proof.
  unfold time_sleep. destruct (sleep_error _ _); [apply preserves_raise, _|].
  apply grows_log. intros q [].
Qed.

Lemma grows_download_one ntt_id f t :
  preserves (grows dir) (download_one World network os_error dir delay ntt_id f t).
Proof.
  intros st. unfold download_one.
  case_bool_decide as Hext; [reflexivity|].
  unfold bind at 1, os_path_exists at 1.
  case_bool_decide as Hpresent.
  - apply preserves_tally_incr, _.
  - assert (fs st !! outpath_of dir ntt_id (ext f) = None) as Hnone.
    { destruct (fs st !! _) eqn:Hq; [|done]. destruct Hpresent. eauto. }
    apply preserves_at; [apply _| |].
    + apply grows_curl_download; [done|]. by apply outpath_is_target.
    + intros size. apply preserves_bind; [apply _| |].
      * destruct (size =? 0); [apply preserves_ret, _|apply preserves_tally_incr, _].
      * intros t'. apply preserves_bind; [apply _|apply grows_time_sleep|].
        intros _. apply preserves_ret, _.
Qed.

Lemma grows_get_file_info ntt_id :
  preserves (grows dir) (get_file_info U World network ntt_id).
Proof.
  apply preserves_bind; [apply _|apply grows_curl_get|].
  intros html. apply preserves_ret, _.
Qed.

Lemma grows_get_article_ids page :
  preserves (grows dir) (get_article_ids U O World network page).
Proof.
  apply preserves_bind; [apply _|apply grows_curl_get|].
  intros html. apply preserves_ret, _.
Qed.

Lemma grows_process_article ntt_id t :
  preserves (grows dir) (process_article U World network os_error dir delay ntt_id t).
Proof.
  apply preserves_try_except; [apply _|apply grows_get_file_info| |].
  - intros [|f files].
    + apply preserves_bind; [apply _|apply grows_time_sleep|].
      intros _. apply preserves_ret, _.
    + apply preserves_bind; [apply _| |].
      * apply preserves_for_each; [apply _|]. intros. apply grows_download_one.
      * intros t'. apply preserves_bind; [apply _|apply grows_time_sleep|].
        intros _. apply preserves_ret, _.
  - intros e. apply preserves_bind; [apply _|apply grows_time_sleep|].
    intros _. apply preserves_ret, _.
Qed.

Lemma grows_scan_page page acc :
  preserves (grows dir) (scan_page U O World network os_error delay page acc).
Proof.
  apply preserves_bind; [apply _| |].
  - apply preserves_try_except; [apply _|apply grows_get_article_ids| |];
      intros; apply preserves_ret, _.
  - intros ids. apply preserves_bind; [apply _|apply grows_time_sleep|].
    intros _. apply preserves_ret, _.
Qed.

Lemma grows_scan_pages n : preserves (grows dir) (scan_pages U O World network os_error delay n).
Proof.
  apply preserves_bind; [apply _| |intros; apply preserves_ret, _].
  apply preserves_for_each; [apply _|]. intros. apply grows_scan_page.
Qed.

Lemma grows_process_articles ids :
  preserves (grows dir) (process_articles U World network os_error dir delay ids).
Proof. apply preserves_for_each; [apply _|]. intros. apply grows_process_article. Qed.

End ProgramGrows.

Lemma grows_os_makedirs {World} os_error dir path :
  preserves (grows (World:=World) dir) (os_makedirs World os_error path).
Proof.
  intros st. unfold os_makedirs.
  destruct (_ || _); [reflexivity|]. destruct (os_error _); [reflexivity|].
  apply grows_log. intros q [].
Qed.

Lemma grows_main U O {World} network os_error (a : args) :
  preserves (grows (World:=World) (outdir a)) (main U O World network os_error a).
Proof.
  pose proof (grows_preorder (World:=World) (outdir a)).
  apply preserves_bind; [done| |].
  - apply grows_os_makedirs.
  - intros _. apply preserves_bind; [done|apply grows_scan_pages|].
    intros ids. apply grows_process_articles.
Qed.

(** ** One attachment *)

Section DownloadOne.
Context {World : Type}.
Variable network : World -> list pystr -> World * option bytes * outcome CompletedProcess.
Variable os_error : oscall -> option exn.
Variable dir : pystr.
Variable delay : float.
Implicit Types st : state World.

Lemma time_sleep_run secs st :
  time_sleep World os_error secs st
  = match sleep_error os_error secs with
    | Some e => (Raise e, st)
    | None => (Ok tt, slept secs st)
    end.
Proof. unfold time_sleep. by destruct (sleep_error _ _). Qed.

Lemma sleep_then_ret {A} secs (a : A) st :
  bind World (time_sleep World os_error secs) (fun _ => ret World a) st
  = match sleep_error os_error secs with
    | Some e => (Raise e, st)
    | None => (Ok a, slept secs st)
    end.
Proof. unfold bind. rewrite time_sleep_run. by destruct (sleep_error _ _). Qed.

Lemma sleep_then_ret_Ok {A} secs (a b : A) st st' :
  bind World (time_sleep World os_error secs) (fun _ => ret World a) st = (Ok b, st') ->
  sleep_error os_error secs = None /\ b = a /\ st' = slept secs st.
Proof.
  rewrite sleep_then_ret. destruct (sleep_error _ _); [done|]. by intros [= <- <-].
Qed.

Lemma download_one_rejected ntt_id f t st :
  ext f ∉ accepted_exts ->
  download_one World network os_error dir delay ntt_id f t st = (Ok t, st).
Proof. intros Hext. unfold download_one. by rewrite bool_decide_true. Qed.

Lemma download_one_present ntt_id f t st c :
  ext f ∈ accepted_exts ->
  fs st !! outpath_of dir ntt_id (ext f) = Some c ->
  download_one World network os_error dir delay ntt_id f t st = tally_incr World t (ext f) st.
Proof.
  intros Hext Hc. unfold download_one.
  rewrite bool_decide_false by (by intros ?).
  unfold bind, os_path_exists. by rewrite bool_decide_true by eauto.
Qed.

Lemma download_one_absent ntt_id f t st :
  ext f ∈ accepted_exts ->
  fs st !! outpath_of dir ntt_id (ext f) = None ->
  download_one World network os_error dir delay ntt_id f t st =
  bind World
    (curl_download World network (atchFileNo f) (fileOrd f)
       (outpath_of dir ntt_id (ext f)))
    (fun size =>
       bind World
         (if size =? 0 then ret World t else tally_incr World t (ext f))
         (fun t' => bind World (time_sleep World os_error (delay * 0.5)) (fun _ => ret World t')))
    st.
Proof.
  intros Hext Hc. unfold download_one.
  rewrite bool_decide_false by (by intros ?).
  unfold bind at 1, os_path_exists at 1.
  rewrite bool_decide_false; [done|]. rewrite Hc. by intros [? ?].
Qed.

Lemma tally_incr_Ok t e st r st' :
  tally_incr World t e st = (r, st') ->
  st' = st /\ match t !! e with
              | Some n => r = Ok (<[e := n + 1]> t)
              | None => r = Raise KeyError
              end.
Proof.
  unfold tally_incr. destruct (t !! e); intros [= <- <-]; done.
Qed.

(** What [download_one] does to the tally when it returns: nothing, or one
    more for the extension of the descriptor. *)
Lemma download_one_tally ntt_id f t st t' st' :
  download_one World network os_error dir delay ntt_id f t st = (Ok t', st') ->
  t' = t \/ (ext f ∈ accepted_exts
             /\ is_Some (fs st' !! outpath_of dir ntt_id (ext f))
             /\ exists n, t !! ext f = Some n /\ t' = <[ext f := n + 1]> t).
Proof.
  destruct (decide (ext f ∈ accepted_exts)) as [Hext|Hext];
    [|rewrite download_one_rejected by done; intros [= <- <-]; by left].
  destruct (fs st !! outpath_of dir ntt_id (ext f)) as [c|] eqn:Hc.
  - rewrite (download_one_present _ _ _ _ c) by done.
    intros [-> Ht]%tally_incr_Ok. destruct (t !! ext f) as [n|] eqn:Hn; [|done].
    right. simplify_eq. eauto 10.
  - rewrite download_one_absent by done. unfold bind at 1.
    rewrite curl_download_unfold.
    destruct (subprocess_run _ _ _ st) as [[cp|e] st1]; [|done].
    destruct (usable_size cp (fs st1 !! _)) as [n|] eqn:Hu.
    + apply usable_size_Some in Hu as (_ & c & Hfile & -> & Hgt).
      unfold bind at 1.
      destruct (Z.eqb_spec (Z.of_nat (length c)) 0) as [?|_]; [lia|].
      destruct (tally_incr World t (ext f) st1) as [r st2] eqn:Hincr.
      apply tally_incr_Ok in Hincr as [-> Hr].
      destruct (t !! ext f) as [m|] eqn:Hm; subst r; [|done].
      intros (_ & -> & ->)%sleep_then_ret_Ok. right. simpl. eauto 10.
    + unfold bind at 1. change (0 =? 0) with true. cbv beta iota delta [ret].
      intros (_ & -> & _)%sleep_then_ret_Ok. by left.
Qed.

Lemma download_one_dom ntt_id f t st t' st' :
  download_one World network os_error dir delay ntt_id f t st = (Ok t', st') -> dom t' = dom t.
Proof.
  intros [->|(_ & _ & n & Hn & ->)]%download_one_tally; [done|].
  rewrite dom_insert_L. apply elem_of_dom_2 in Hn. set_solver.
Qed.

End DownloadOne.

(** ** The tally and the target paths *)

Section Tally.
Variable U : unicode_db.
Variable O : set_order.
Context {World : Type}.
Variable network : World -> list pystr -> World * option bytes * outcome CompletedProcess.
Variable os_error : oscall -> option exn.
Implicit Types st : state World.

Lemma for_each_inv {A S} (I : S -> Prop) (l : list A) (body : A -> S -> M World S)
    acc st r st' :
  (forall x a s a' s', I a -> body x a s = (Ok a', s') -> I a') ->
  I acc -> for_each World l body acc st = (Ok r, st') -> I r.
Proof.
  intros Hbody. revert acc st. induction l as [|x l IH]; intros acc st Hacc; simpl.
  - by intros [= <- <-].
  - unfold bind. destruct (body x acc st) as [[a|e] s] eqn:Hx; [|done].
    apply IH. eauto.
Qed.

Lemma for_each_cons_Ok {A S} (x : A) l (body : A -> S -> M World S) acc st r st' :
  for_each World (x :: l) body acc st = (Ok r, st') ->
  exists a s, body x acc st = (Ok a, s) /\ for_each World l body a s = (Ok r, st').
Proof.
  simpl. unfold bind. destruct (body x acc st) as [[a|e] s]; [eauto|done].
Qed.

Lemma process_article_dom dir secs ntt_id t st t' st' :
  process_article U World network os_error dir secs ntt_id t st = (Ok t', st') -> dom t' = dom t.
Proof.
  unfold process_article, try_except.
  destruct (get_file_info U World network ntt_id st) as [[files|e] s].
  - destruct files as [|f files].
    + by intros (_ & -> & _)%sleep_then_ret_Ok.
    + unfold bind at 1.
      destruct (for_each World (f :: files) _ t s) as [[t1|e] s1] eqn:Hloop; [|done].
      intros (_ & -> & _)%sleep_then_ret_Ok.
      eapply (for_each_inv (fun t1 => dom t1 = dom t)); [|done|exact Hloop].
      intros x a s0 a' s0' Ha Hx. apply download_one_dom in Hx. congruence.
  - destruct (is_Exception e); [|done].
    by intros (_ & -> & _)%sleep_then_ret_Ok.
Qed.

Lemma initial_tally_dom : dom initial_tally = list_to_set accepted_exts.
Proof.
  unfold initial_tally, accepted_exts. rewrite !dom_insert_L, dom_empty_L.
  generalize (py "hwp") (py "hwpx") (py "odt"). intros a b c. simpl. set_solver.
Qed.

Lemma main_tally_dom (a : args) st t st' :
  main U O World network os_error a st = (Ok t, st') -> dom t = list_to_set accepted_exts.
Proof.
  rewrite <- initial_tally_dom.
  unfold main. unfold bind at 1.
  destruct (os_makedirs World os_error (outdir a) st) as [[[]|e] sm]; [|done].
  unfold bind at 1.
  destruct (scan_pages U O World network os_error (delay a) (pages a) sm)
    as [[ids|e] s]; [|done].
  unfold process_articles. intros Hloop.
  eapply (for_each_inv (fun t1 => dom t1 = dom initial_tally)); [|done|exact Hloop].
  intros x t0 s0 t1 s1 Ht0 Hx. apply process_article_dom in Hx. congruence.
Qed.

Lemma outpath_suffix dir ntt_id e :
  (py "." ++ e) `suffix_of` outpath_of dir ntt_id e.
Proof.
  unfold outpath_of, os_path_join.
  change (startswith_sep (py "msit-" ++ ntt_id ++ py "." ++ e)) with false.
  cbv iota. destruct (_ || _).
  - exists (dir ++ py "msit-" ++ ntt_id). by rewrite <- !app_assoc.
  - exists (dir ++ [sep] ++ py "msit-" ++ ntt_id). by rewrite <- !app_assoc.
Qed.

Lemma target_longer dir q : is_target dir q -> (length dir < length q)%nat.
Proof.
  intros (ntt_id & e & _ & ->). unfold outpath_of, os_path_join.
  change (startswith_sep (py "msit-" ++ ntt_id ++ py "." ++ e)) with false.
  cbv iota. destruct (_ || _); rewrite !length_app; simpl; lia.
Qed.

Lemma target_suffix dir q :
  is_target dir q -> exists e, e ∈ accepted_exts /\ (py "." ++ e) `suffix_of` q.
Proof. intros (ntt_id & e & He & ->). exists e. split; [done|apply outpath_suffix]. Qed.

Lemma new_events_app st st' evs :
  trace st' = trace st ++ evs -> new_events st st' = evs.
Proof. intros Htr. unfold new_events. rewrite Htr. apply drop_app_length. Qed.

Lemma for_each_filter {A S} (P : A -> Prop) `{!forall x, Decision (P x)}
    (l : list A) (body : A -> S -> M World S) acc st :
  (forall x a s, ~ P x -> body x a s = (Ok a, s)) ->
  for_each World l body acc st = for_each World (filter P l) body acc st.
Proof.
  intros Hskip. revert acc st. induction l as [|x l IH]; intros acc st; [done|].
  rewrite filter_cons. destruct (decide (P x)) as [Hx|Hx]; simpl.
  - unfold bind. destruct (body x acc st) as [[a|e] s]; [apply IH|done].
  - unfold bind. rewrite Hskip by done. apply IH.
Qed.

(** C6: a descriptor whose extension is not hwp, hwpx or odt is passed over
    without a request, a file or a count: its turn in the loop leaves the
    state and the tally as they were, the loop over the descriptors runs as
    the loop over the accepted ones alone, and in a whole run every download
    and every new file is at a path ending in an accepted extension while
    the tally keeps exactly the three counters.  pdf is not accepted. *)
Theorem rejected_extension_never_downloaded :
  (forall dir secs ntt_id f t st,
      ext f ∉ accepted_exts ->
      download_one World network os_error dir secs ntt_id f t st = (Ok t, st))
  /\ (forall dir secs ntt_id files t st,
        for_each World files (download_one World network os_error dir secs ntt_id) t st
        = for_each World (filter (fun f => ext f ∈ accepted_exts) files)
            (download_one World network os_error dir secs ntt_id) t st)
  /\ (forall a st,
        let r := main U O World network os_error a st in
        (forall ev q, ev ∈ new_events st r.2 -> writes_to ev q ->
           fs st !! q = None
           /\ exists e, e ∈ accepted_exts /\ (py "." ++ e) `suffix_of` q)
        /\ (forall q, fs st !! q = None -> is_Some (fs r.2 !! q) ->
              exists e, e ∈ accepted_exts /\ (py "." ++ e) `suffix_of` q)
        /\ (forall t, r.1 = Ok t -> dom t = list_to_set accepted_exts))
  /\ py "pdf" ∉ accepted_exts.
Proof.
  split_and!.
  - intros. by apply download_one_rejected.
  - intros. apply for_each_filter. intros. by apply download_one_rejected.
  - intros a st r. subst r.
    destruct (grows_main U O network os_error a st) as (_ & Hnew & evs & Htr & Hevs).
    split_and!.
    + intros ev q Hev Hq. rewrite (new_events_app _ _ _ Htr) in Hev.
      rewrite Forall_forall in Hevs. destruct (Hevs ev Hev q Hq) as [Hnone Htarget].
      split; [done|]. by eapply target_suffix.
    + intros q Hq Hq'. eapply target_suffix. by apply Hnew.
    + intros t Ht. destruct (main U O World network os_error a st) as [r st'] eqn:Hmain.
      simpl in Ht. subst r. by eapply main_tally_dom.
  - unfold accepted_exts. rewrite !not_elem_of_cons. split_and!; try discriminate.
    apply not_elem_of_nil.
Qed.

End Tally.

(** ** Files that are already there *)

Section AlreadyThere.
Context {World : Type}.
Variable network : World -> list pystr -> World * option bytes * outcome CompletedProcess.
Variable os_error : oscall -> option exn.
Variable dir : pystr.
Variable delay : float.
Implicit Types st : state World.

Lemma download_one_skip ntt_id f t st c n :
  ext f ∈ accepted_exts ->
  fs st !! outpath_of dir ntt_id (ext f) = Some c ->
  t !! ext f = Some n ->
  download_one World network os_error dir delay ntt_id f t st = (Ok (<[ext f := n + 1]> t), st).
Proof.
  intros Hext Hc Hn.
  rewrite (download_one_present network os_error dir delay ntt_id f t st c) by done.
  unfold tally_incr. by rewrite Hn.
Qed.

Lemma download_one_other_counter ntt_id f t st t' st' e :
  download_one World network os_error dir delay ntt_id f t st = (Ok t', st') ->
  ext f <> e -> t' !! e = t !! e.
Proof.
  intros [->|(_ & _ & n & Hn & ->)]%download_one_tally Hne; [done|].
  by rewrite lookup_insert_ne.
Qed.

Lemma loop_counts_present ntt_id e files :
  e ∈ accepted_exts ->
  forall t st c n t' st',
    fs st !! outpath_of dir ntt_id e = Some c ->
    t !! e = Some n ->
    for_each World files (download_one World network os_error dir delay ntt_id) t st = (Ok t', st') ->
    t' !! e = Some (n + Z.of_nat (length (filter (fun f => ext f = e) files))).
Proof.
  intros He. induction files as [|f files IH]; intros t st c n t' st' Hc Hn.
  - intros [= <- <-]. rewrite Hn. f_equal. simpl. lia.
  - intros (t1 & st1 & Hstep & Hrest)%for_each_cons_Ok.
    rewrite filter_cons. destruct (decide (ext f = e)) as [Hf|Hf].
    + subst e. rewrite (download_one_skip _ _ _ _ c n) in Hstep by done.
      simplify_eq. rewrite (IH _ _ c (n + 1) _ _ Hc (lookup_insert_eq _ _ _) Hrest).
      f_equal. simpl. lia.
    + pose proof (grows_download_one network os_error dir delay ntt_id f t st) as (Hkeep & _).
      rewrite Hstep in Hkeep. simpl in Hkeep.
      apply (IH t1 st1 c n t' st'); [by apply Hkeep| |done].
      by rewrite (download_one_other_counter _ _ _ _ _ _ _ Hstep Hf).
Qed.

Lemma outpath_of_ext_inj ntt_id e e' :
  outpath_of dir ntt_id e = outpath_of dir ntt_id e' -> e = e'.
Proof.
  unfold outpath_of, os_path_join.
  change (startswith_sep (py "msit-" ++ ntt_id ++ py "." ++ e)) with false.
  change (startswith_sep (py "msit-" ++ ntt_id ++ py "." ++ e')) with false.
  cbv iota. destruct (_ || _); rewrite ?app_assoc; by intros ?%app_inv_head.
Qed.

#[local] Instance untouched_preorder q : PreOrder (untouched (World:=World) q).
Proof.
  split; [by intros st|]. intros st1 st2 st3 H12 H23.
  unfold untouched in *. congruence.
Qed.

(** [download_one] leaves every path but its own output path alone. *)
Lemma download_one_frame ntt_id f t q :
  q <> outpath_of dir ntt_id (ext f) ->
  preserves (untouched q) (download_one World network os_error dir delay ntt_id f t).
Proof.
  intros Hq. unfold download_one. case_bool_decide; [apply preserves_ret, _|].
  apply preserves_bind; [apply _|apply preserves_os_path_exists, _|].
  intros [|]; [apply preserves_tally_incr, _|].
  apply preserves_bind; [apply _| |].
  - intros st. unfold untouched.
    rewrite curl_download_unfold, subprocess_run_download.
    destruct (network (world st) _) as [[w' wr] out]. cbn [fst snd].
    assert (match wr with
            | Some c => <[outpath_of dir ntt_id (ext f) := c]> (fs st)
            | None => fs st
            end !! q = fs st !! q) as Hother.
    { destruct wr; [by rewrite lookup_insert_ne|done]. }
    destruct out as [cp|e]; [|done].
    destruct (usable_size cp _); [done|].
    unfold without. cbn [snd fs]. by rewrite lookup_delete_ne.
  - intros size. apply preserves_bind; [apply _| |].
    + destruct (size =? 0); [apply preserves_ret, _|apply preserves_tally_incr, _].
    + intros t'. apply preserves_bind; [apply _| |intros; apply preserves_ret, _].
      unfold time_sleep. destruct (sleep_error _ _); [apply preserves_raise, _|].
      by intros st.
Qed.

Lemma loop_keeps_file ntt_id files t st p c :
  fs st !! p = Some c ->
  let r := for_each World files (download_one World network os_error dir delay ntt_id) t st in
  fs r.2 !! p = Some c
  /\ (forall ev, ev ∈ new_events st r.2 -> ~ writes_to ev p).
Proof.
  intros Hc r. subst r.
  pose proof (preserves_for_each (grows dir) files
                (download_one World network os_error dir delay ntt_id) t
                (grows_download_one network os_error dir delay ntt_id)) as Hgrows.
  destruct (Hgrows st) as (Hkeep & _ & evs & Htr & Hevs).
  split; [by apply Hkeep|].
  intros ev Hev Hw. rewrite (new_events_app _ _ _ Htr) in Hev.
  rewrite Forall_forall in Hevs. destruct (Hevs ev Hev _ Hw) as [Hnone _].
  congruence.
Qed.

(** A loop that starts without the file and ends with it: one descriptor
    of the extension produced it, the loop before it left nothing at the
    path, and the loop after it did not write there. *)
Lemma loop_first_success ntt_id e files :
  forall t st c,
    fs st !! outpath_of dir ntt_id e = None ->
    let body := download_one World network os_error dir delay ntt_id in
    let r := for_each World files body t st in
    fs r.2 !! outpath_of dir ntt_id e = Some c ->
    exists before f after tb sb,
      files = before ++ f :: after /\ ext f = e
      /\ for_each World before body t st = (Ok tb, sb)
      /\ fs sb !! outpath_of dir ntt_id e = None
      /\ fs (body f tb sb).2 !! outpath_of dir ntt_id e = Some c
      /\ (forall ev, ev ∈ new_events (body f tb sb).2 r.2 ->
            ~ writes_to ev (outpath_of dir ntt_id e)).
Proof.
  induction files as [|f files IH]; intros t st c Hnone body r; subst r.
  - simpl. congruence.
  - cbn [for_each]. unfold bind at 1 2.
    destruct (body f t st) as [o1 s1] eqn:Hstep.
    destruct (fs s1 !! outpath_of dir ntt_id e) as [c1|] eqn:Hp1.
    + intros Hc.
      assert (ext f = e) as Hf.
      { destruct (decide (outpath_of dir ntt_id e = outpath_of dir ntt_id (ext f)))
          as [Heq|Hne]; [symmetry; by eapply outpath_of_ext_inj|].
        pose proof (download_one_frame ntt_id f t _ Hne st) as Hsame.
        unfold untouched in Hsame. fold body in Hsame. rewrite Hstep in Hsame.
        cbn [snd] in Hsame. congruence. }
      exists [], f, files, t, st. rewrite Hstep. cbn [snd].
      destruct o1 as [t1|e1].
      * destruct (loop_keeps_file ntt_id files t1 s1 _ c1 Hp1) as [Hkeep Hquiet].
        fold body in Hkeep, Hquiet.
        split_and!; [done|done|done|done|congruence|done].
      * cbn [snd] in Hc |- *. split_and!; [done|done|done|done|congruence|].
        intros ev Hev. unfold new_events in Hev. rewrite drop_all in Hev.
        by apply elem_of_nil in Hev.
    + destruct o1 as [t1|e1]; [|cbn [snd]; congruence].
      intros Hc.
      destruct (IH t1 s1 c Hp1 Hc)
        as (before & f' & after & tb & sb & -> & Hf' & Hbefore & Hsb & Hfile & Hquiet).
      exists (f :: before), f', after, tb, sb.
      split_and!; [done|done| |done|done|done].
      cbn [for_each]. fold body. by rewrite (bind_ok _ _ _ _ _ Hstep).
Qed.

(** C9, as the program has it: for an accepted extension, all descriptors of
    an article with that extension share one output path; a descriptor that
    is counted leaves the file in place; once the file is there, the rest of
    the loop leaves it as it is, sends no download to its path, and counts
    one more for each remaining descriptor with that extension; and when the
    loop starts without the file and ends with it, the file is the download
    of one descriptor of that extension, before which nothing was left at
    the path and after which nothing was written there.  So at most one
    download per article and extension is kept, while a download that fails
    before it does write to the path and has its file removed. *)
Theorem same_extension_one_file ntt_id e :
  e ∈ accepted_exts ->
  (forall f, ext f = e ->
     outpath_of dir ntt_id (ext f) = outpath_of dir ntt_id e)
  /\ (forall f t0 st0 t1 st1,
        ext f = e ->
        download_one World network os_error dir delay ntt_id f t0 st0 = (Ok t1, st1) ->
        t1 <> t0 -> is_Some (fs st1 !! outpath_of dir ntt_id e))
  /\ (forall files t st c n,
        fs st !! outpath_of dir ntt_id e = Some c ->
        t !! e = Some n ->
        let r := for_each World files (download_one World network os_error dir delay ntt_id) t st in
        fs r.2 !! outpath_of dir ntt_id e = Some c
        /\ (forall ev, ev ∈ new_events st r.2 ->
              ~ writes_to ev (outpath_of dir ntt_id e))
        /\ (forall t', r.1 = Ok t' ->
              t' !! e = Some (n + Z.of_nat (length (filter (fun f => ext f = e) files)))))
  /\ (forall files t st c,
        fs st !! outpath_of dir ntt_id e = None ->
        let body := download_one World network os_error dir delay ntt_id in
        let r := for_each World files body t st in
        fs r.2 !! outpath_of dir ntt_id e = Some c ->
        exists before f after tb sb,
          files = before ++ f :: after /\ ext f = e
          /\ for_each World before body t st = (Ok tb, sb)
          /\ fs sb !! outpath_of dir ntt_id e = None
          /\ fs (body f tb sb).2 !! outpath_of dir ntt_id e = Some c
          /\ (forall ev, ev ∈ new_events (body f tb sb).2 r.2 ->
                ~ writes_to ev (outpath_of dir ntt_id e))).
Proof.
  intros He. split_and!.
  - by intros f ->.
  - intros f t0 st0 t1 st1 <- Hstep Hne.
    apply download_one_tally in Hstep as [->|(_ & Hfile & _)]; done.
  - intros files t st c n Hc Hn r. subst r.
    destruct (loop_keeps_file ntt_id files t st _ c Hc) as [Hkeep Hquiet].
    split_and!; [done|done|].
    intros t' Hr.
    destruct (for_each World files _ t st) as [r st'] eqn:Hloop.
    simpl in Hr. subst r.
    exact (loop_counts_present ntt_id e files He t st c n t' st' Hc Hn Hloop).
  - intros files t st c Hnone. by apply loop_first_success.
Qed.

End AlreadyThere.

(** ** Failures of a fetch *)

Section Isolation.
Variable U : unicode_db.
Variable O : set_order.
Context {World : Type}.
Variable network : World -> list pystr -> World * option bytes * outcome CompletedProcess.
Variable os_error : oscall -> option exn.
Variable delay : float.
Implicit Types st : state World.






End Isolation.



(** ** The download request *)

Section Request.
Context {World : Type}.
Variable network : World -> list pystr -> World * option bytes * outcome CompletedProcess.
Variable os_error : oscall -> option exn.
Variable delay : float.
Implicit Types st : state World.

Lemma curl_download_trace a o p st :
  trace (curl_download World network a o p st).2
  = trace st ++ [EvRun (download_argv a o p)].
Proof.
  rewrite curl_download_unfold, subprocess_run_download.
  destruct (network (world st) (download_argv a o p)).2 as [cp|e]; [|done].
  by destruct (usable_size cp _).
Qed.

Lemma download_one_absent_trace dir ntt_id f t st :
  ext f ∈ accepted_exts ->
  fs st !! outpath_of dir ntt_id (ext f) = None ->
  exists rest,
    new_events st (download_one World network os_error dir delay ntt_id f t st).2
    = EvRun (download_argv (atchFileNo f) (fileOrd f) (outpath_of dir ntt_id (ext f)))
        :: rest
    /\ (rest = [] \/ rest = [EvSleep (delay * 0.5)]).
Proof.
  intros Hext Hnone. rewrite download_one_absent by done.
  pose proof (curl_download_trace (atchFileNo f) (fileOrd f)
                (outpath_of dir ntt_id (ext f)) st) as Htr.
  unfold bind at 1.
  destruct (curl_download World network _ _ _ st) as [[size|e] st1]; simpl in Htr.
  - assert (exists t', (if size =? 0 then ret World t else tally_incr World t (ext f)) st1
                       = (Ok t', st1)
            \/ (if size =? 0 then ret World t else tally_incr World t (ext f)) st1
               = (Raise KeyError, st1)) as [t' [Hcount|Hcount]].
    { destruct (size =? 0); [by exists t; left|].
      unfold tally_incr. destruct (t !! ext f) as [n|]; [eexists; by left|].
      exists t. by right. }
    + rewrite (bind_ok _ _ _ _ _ Hcount), sleep_then_ret.
      destruct (sleep_error _ _); cbn [snd].
      * exists []. split; [|by left]. by apply new_events_app.
      * exists [EvSleep (delay * 0.5)]. split; [|by right].
        apply new_events_app. simpl. by rewrite Htr, <- app_assoc.
    + rewrite (bind_raise _ _ _ _ _ Hcount). simpl.
      exists []. split; [|by left]. by apply new_events_app.
  - simpl. exists []. split; [|by left]. by apply new_events_app.
Qed.

Lemma os_path_join_plain a b :
  startswith_sep b = false -> a <> [] -> last a <> Some sep ->
  os_path_join a b = a ++ py "/" ++ b.
Proof.
  intros Hb Ha Hlast. unfold os_path_join, endswith_sep. rewrite Hb.
  rewrite bool_decide_false by done. simpl.
  destruct (last a) as [c|] eqn:Hc; [|done].
  destruct (N.eqb_spec c sep) as [->|]; [done|done].
Qed.

Lemma os_path_join_slash a b :
  startswith_sep b = false -> last a = Some sep -> os_path_join a b = a ++ b.
Proof.
  intros Hb Hlast. unfold os_path_join, endswith_sep. rewrite Hb, Hlast.
  change (sep =? sep)%N with true. by rewrite orb_true_r.
Qed.

(** C7, as the program has it: an attachment that is downloaded is
    requested by one curl run that posts
    [atchFileNo=<handle>&fileOrd=<ordinal>&fileBtn=A] to the download
    endpoint and writes to [os.path.join(outdir, msit-<articleId>.<ext>)];
    that path is [<outdir>/msit-<articleId>.<ext>] when outdir is not empty
    and does not end in a slash, and [<outdir>msit-<articleId>.<ext>] when
    it ends in one.  Descriptor ('55','1','hwp') of article 1001 posts
    atchFileNo=55&fileOrd=1&fileBtn=A and writes msit-1001.hwp. *)
Theorem download_request_shape dir ntt_id f t st :
  ext f ∈ accepted_exts ->
  fs st !! outpath_of dir ntt_id (ext f) = None ->
  let name := py "msit-" ++ ntt_id ++ py "." ++ ext f in
  (exists rest,
      new_events st (download_one World network os_error dir delay ntt_id f t st).2
      = EvRun [py "curl"; py "-sL"; py "-A"; UA; py "-d";
               py "atchFileNo=" ++ atchFileNo f ++ py "&fileOrd=" ++ fileOrd f
                 ++ py "&fileBtn=A";
               py "-o"; os_path_join dir name; DOWNLOAD_URL] :: rest
      /\ (rest = [] \/ rest = [EvSleep (delay * 0.5)]))
  /\ (dir <> [] -> last dir <> Some sep ->
      os_path_join dir name = slash_path dir ntt_id (ext f))
  /\ (last dir = Some sep -> os_path_join dir name = dir ++ name)
  /\ (atchFileNo f = py "55" -> fileOrd f = py "1" -> ext f = py "hwp" ->
      ntt_id = py "1001" ->
      post_body (atchFileNo f) (fileOrd f) = py "atchFileNo=55&fileOrd=1&fileBtn=A"
      /\ name = py "msit-1001.hwp").
Proof.
  intros Hext Hnone name. split_and!.
  - apply (download_one_absent_trace dir ntt_id f t st Hext Hnone).
  - intros Hdir Hlast. by apply os_path_join_plain.
  - intros Hlast. by apply os_path_join_slash.
  - intros Ha Ho He ->. subst name. by rewrite Ha, Ho, He.
Qed.

End Request.

(** Descriptor ('55','1','hwp') of article 1001, downloaded into msit-docs
    from the scripted host. *)
Lemma download_request_shape_witness :
  exists rest,
    new_events Demo.start
      (download_one nat Demo.host Demo.os (py "msit-docs") 1 (py "1001") Demo.hwp_55_1
         initial_tally Demo.start).2
    = EvRun [py "curl"; py "-sL"; py "-A"; UA; py "-d";
             py "atchFileNo=55&fileOrd=1&fileBtn=A";
             py "-o"; py "msit-docs/msit-1001.hwp"; DOWNLOAD_URL] :: rest.
Proof.
  destruct (download_request_shape Demo.host Demo.os 1 (py "msit-docs") (py "1001")
              Demo.hwp_55_1 initial_tally Demo.start
              ltac:(by left) ltac:(reflexivity))
    as ((rest & Hrest & _) & _).
  exists rest. exact Hrest.
Defined.

(** With an output directory given with its trailing slash, the path the
    program writes to is not the one with a slash put in between. *)
Lemma output_path_trailing_slash :
  new_events Demo.start
    (download_one nat Demo.host Demo.os (py "out/") 1 (py "1001") Demo.hwp_55_1
       initial_tally Demo.start).2
  = [EvRun (download_argv (py "55") (py "1") (py "out/msit-1001.hwp")); EvSleep 0.5]
  /\ py "out/msit-1001.hwp" <> slash_path (py "out/") (py "1001") (py "hwp").
Proof. split; [vm_compute; reflexivity|discriminate]. Qed.

(** A pdf descriptor on the scripted host: nothing happens. *)
Lemma rejected_extension_never_downloaded_witness :
  download_one nat Demo.host Demo.os (py "msit-docs") 1 (py "1001") Demo.pdf_55_2
    initial_tally Demo.start = (Ok initial_tally, Demo.start).
Proof.
  destruct (rejected_extension_never_downloaded Demo.ascii_only Demo.first_seen Demo.host
              Demo.os)
    as (Hstep & _ & _ & Hpdf).
  apply Hstep. exact Hpdf.
Defined.

Lemma demo_first_download :
  exists s1,
    download_one nat Demo.host Demo.os (py "msit-docs") 1 (py "1001") Demo.hwp_55_1
      initial_tally Demo.start = (Ok (<[py "hwp" := 1]> initial_tally), s1)
    /\ fs s1 !! outpath_of (py "msit-docs") (py "1001") (py "hwp")
       = Some (Demo.payload 500)
    /\ exists t',
         (for_each nat [Demo.pdf_55_2; Demo.hwp_56_1]
            (download_one nat Demo.host Demo.os (py "msit-docs") 1 (py "1001"))
            (<[py "hwp" := 1]> initial_tally) s1).1 = Ok t'.
Proof.
  eexists. split; [vm_compute; reflexivity|]. split; [vm_compute; reflexivity|].
  eexists. vm_compute. reflexivity.
Qed.

Lemma demo_tally_one : <[py "hwp" := 1]> initial_tally !! py "hwp" = Some 1.
Proof. vm_compute. reflexivity. Qed.

(** Article 1001 on the scripted host, started without its file: 55/1 is
    downloaded, and then descriptor 56/1 with the same extension is counted
    without a download. *)
Lemma same_extension_one_file_witness :
  exists s1 t',
    download_one nat Demo.host Demo.os (py "msit-docs") 1 (py "1001") Demo.hwp_55_1
      initial_tally Demo.start = (Ok (<[py "hwp" := 1]> initial_tally), s1)
    /\ (for_each nat [Demo.pdf_55_2; Demo.hwp_56_1]
          (download_one nat Demo.host Demo.os (py "msit-docs") 1 (py "1001"))
          (<[py "hwp" := 1]> initial_tally) s1).1 = Ok t'
    /\ t' !! py "hwp" = Some (1 + 1).
Proof.
  destruct (same_extension_one_file Demo.host Demo.os (py "msit-docs") 1 (py "1001")
              (py "hwp") ltac:(by left)) as (_ & _ & Hloop & _).
  destruct demo_first_download as (s1 & Hfirst & Hfile & t' & Hrest).
  destruct (Hloop [Demo.pdf_55_2; Demo.hwp_56_1] (<[py "hwp" := 1]> initial_tally) s1
              (Demo.payload 500) 1 Hfile demo_tally_one) as (_ & _ & Hcount).
  exists s1, t'. split; [exact Hfirst|]. split; [exact Hrest|].
  exact (Hcount t' Hrest).
Defined.

(** Two hwp descriptors of one article, the first of which is answered with
    an error page of 50 bytes: both are downloaded, to the same path. *)
Lemma same_path_written_twice :
  file_info_of Demo.ascii_only
    (py "fn_download('56','1','hwp') fn_download('55','1','hwp')")
  = [Demo.hwp_56_1; Demo.hwp_55_1]
  /\ new_events Demo.start
       (for_each nat [Demo.hwp_56_1; Demo.hwp_55_1]
          (download_one nat Demo.host Demo.os (py "msit-docs") 1 (py "1001"))
          initial_tally Demo.start).2
     = [EvRun (download_argv (py "56") (py "1") (py "msit-docs/msit-1001.hwp"));
        EvSleep 0.5;
        EvRun (download_argv (py "55") (py "1") (py "msit-docs/msit-1001.hwp"));
        EvSleep 0.5]
  /\ writes_to (EvRun (download_argv (py "56") (py "1") (py "msit-docs/msit-1001.hwp")))
       (py "msit-docs/msit-1001.hwp")
  /\ writes_to (EvRun (download_argv (py "55") (py "1") (py "msit-docs/msit-1001.hwp")))
       (py "msit-docs/msit-1001.hwp").
Proof. split_and!; vm_compute; reflexivity. Qed.

(** ** The order of the articles *)

Section Order.
Variable U : unicode_db.
Context {World : Type}.
Variable network : World -> list pystr -> World * option bytes * outcome CompletedProcess.
Variable os_error : oscall -> option exn.
Variable dir : pystr.
Variable delay : float.
Implicit Types st : state World.

Lemma fetched_urls_app evs1 evs2 :
  fetched_urls (evs1 ++ evs2) = fetched_urls evs1 ++ fetched_urls evs2.
Proof. apply omap_app. Qed.

Lemma fetched_urls_get url evs :
  fetched_urls (EvRun (get_argv url) :: evs) = url :: fetched_urls evs.
Proof. done. Qed.

Lemma fetched_urls_download a o p evs :
  fetched_urls (EvRun (download_argv a o p) :: evs) = fetched_urls evs.
Proof. done. Qed.

#[local] Instance fetches_nothing_preorder : PreOrder (fetches_nothing (World:=World)).
Proof.
  split.
  - intros st. exists []. by rewrite app_nil_r.
  - intros st1 st2 st3 (evs1 & Htr1 & Hev1) (evs2 & Htr2 & Hev2).
    exists (evs1 ++ evs2). rewrite Htr2, Htr1, app_assoc. split; [done|].
    by rewrite fetched_urls_app, Hev1, Hev2.
Qed.

Lemma quiet_time_sleep secs :
  preserves fetches_nothing (time_sleep World os_error secs).
Proof.
  unfold time_sleep. destruct (sleep_error _ _); [apply preserves_raise, _|].
  intros st. by exists [EvSleep secs].
Qed.

Lemma quiet_curl_download a o p :
  preserves fetches_nothing (curl_download World network a o p).
Proof.
  intros st. exists [EvRun (download_argv a o p)].
  split; [apply curl_download_trace|done].
Qed.

Lemma quiet_download_one ntt_id f t :
  preserves fetches_nothing (download_one World network os_error dir delay ntt_id f t).
Proof.
  unfold download_one. case_bool_decide; [apply preserves_ret, _|].
  apply preserves_bind; [apply _|apply preserves_os_path_exists, _|].
  intros [|]; [apply preserves_tally_incr, _|].
  apply preserves_bind; [apply _|apply quiet_curl_download|].
  intros size. apply preserves_bind; [apply _| |].
  - destruct (size =? 0); [apply preserves_ret, _|apply preserves_tally_incr, _].
  - intros t'. apply preserves_bind; [apply _|apply quiet_time_sleep|].
    intros _. apply preserves_ret, _.
Qed.

Lemma get_file_info_run ntt_id st :
  get_file_info U World network ntt_id st =
  (match (network (world st) (get_argv (VIEW_URL ntt_id))).2 with
   | Ok cp => Ok (file_info_of U (stdout cp))
   | Raise e => Raise e
   end,
   {| world := (network (world st) (get_argv (VIEW_URL ntt_id))).1.1;
      fs := fs st;
      trace := trace st ++ [EvRun (get_argv (VIEW_URL ntt_id))] |}).
Proof.
  unfold get_file_info, curl_get, bind. rewrite subprocess_run_get.
  by destruct (network (world st) (get_argv (VIEW_URL ntt_id))).2.
Qed.

(** One article: its detail page is fetched, and no other page. *)
Lemma process_article_fetch ntt_id t st :
  exists evs,
    trace (process_article U World network os_error dir delay ntt_id t st).2
    = trace st ++ EvRun (get_argv (VIEW_URL ntt_id)) :: evs
    /\ fetched_urls evs = [].
Proof.
  assert (forall (m : M World (gmap pystr Z)) st1,
            trace st1 = trace st ++ [EvRun (get_argv (VIEW_URL ntt_id))] ->
            preserves fetches_nothing m ->
            exists evs,
              trace (m st1).2 = trace st ++ EvRun (get_argv (VIEW_URL ntt_id)) :: evs
              /\ fetched_urls evs = []) as Hafter.
  { intros m st1 Htr Hm. destruct (Hm st1) as (evs & Hevs & Hquiet).
    exists evs. split; [|done]. by rewrite Hevs, Htr, <- app_assoc. }
  unfold process_article, try_except. rewrite get_file_info_run.
  destruct (network (world st) (get_argv (VIEW_URL ntt_id))).2 as [cp|e].
  - apply Hafter; [done|]. destruct (file_info_of U (stdout cp)) as [|f files].
    + apply preserves_bind; [apply _|apply quiet_time_sleep|].
      intros _. apply preserves_ret, _.
    + apply preserves_bind; [apply _| |].
      * apply preserves_for_each; [apply _|]. intros. apply quiet_download_one.
      * intros t'. apply preserves_bind; [apply _|apply quiet_time_sleep|].
        intros _. apply preserves_ret, _.
  - destruct (is_Exception e).
    + apply Hafter; [done|].
      apply preserves_bind; [apply _|apply quiet_time_sleep|].
      intros _. apply preserves_ret, _.
    + exists []. by split.
Qed.

Lemma articles_loop_fetches ids t st :
  exists evs,
    trace (for_each World ids (process_article U World network os_error dir delay) t st).2
    = trace st ++ evs
    /\ fetched_urls evs `prefix_of` map VIEW_URL ids
    /\ (forall t', (for_each World ids (process_article U World network os_error dir delay) t st).1 = Ok t' ->
          fetched_urls evs = map VIEW_URL ids).
Proof.
  revert t st. induction ids as [|ntt_id ids IH]; intros t st.
  - exists []. simpl. by rewrite app_nil_r.
  - destruct (process_article_fetch ntt_id t st) as (evs1 & Htr1 & Hquiet).
    simpl. unfold bind.
    destruct (process_article U World network os_error dir delay ntt_id t st) as [[t1|e] st1];
      simpl in Htr1.
    + destruct (IH t1 st1) as (evs2 & Htr2 & Hpre & Hall).
      exists ((EvRun (get_argv (VIEW_URL ntt_id)) :: evs1) ++ evs2).
      split_and!.
      * by rewrite Htr2, Htr1, app_assoc.
      * rewrite fetched_urls_app, fetched_urls_get, Hquiet. simpl.
        by apply prefix_cons.
      * intros t' Ht'. rewrite fetched_urls_app, fetched_urls_get, Hquiet. simpl.
        f_equal. by apply (Hall t').
    + exists (EvRun (get_argv (VIEW_URL ntt_id)) :: evs1). split_and!.
      * done.
      * rewrite fetched_urls_get, Hquiet. apply prefix_cons, prefix_nil.
      * done.
Qed.

(** C10: the detail pages are fetched in the order of [sorted] over the id
    strings, one after the other (all of them when the run completes, a
    prefix when it is cut short); that order is ascending code point by
    code point, with a proper prefix first, so "1000" comes before "999";
    it is a rearrangement of the collected ids and the same whatever the
    order in which they were collected. *)
Theorem articles_in_sorted_order ids st :
  let r := process_articles U World network os_error dir delay ids st in
  fetched_urls (new_events st r.2) `prefix_of` map VIEW_URL (sorted ids)
  /\ (forall t, r.1 = Ok t ->
        fetched_urls (new_events st r.2) = map VIEW_URL (sorted ids))
  /\ StronglySorted str_leq (sorted ids)
  /\ sorted ids ≡ₚ ids
  /\ (forall ids', ids' ≡ₚ ids -> sorted ids' = sorted ids)
  /\ sorted [py "999"; py "1000"] = [py "1000"; py "999"].
Proof.
  intros r. subst r. unfold process_articles.
  destruct (articles_loop_fetches (sorted ids) initial_tally st)
    as (evs & Htr & Hpre & Hall).
  rewrite (new_events_app _ _ _ Htr).
  split_and!.
  - done.
  - done.
  - apply sorted_StronglySorted.
  - apply sorted_perm.
  - intros ids' Hperm. by apply sorted_unique.
  - reflexivity.
Qed.

End Order.

(** The two articles of the scripted host, collected in either order, are
    visited in the same order. *)
Lemma articles_in_sorted_order_witness :
  fetched_urls
    (new_events Demo.start
       (process_articles Demo.ascii_only nat Demo.host Demo.os (py "msit-docs") 1
          [py "1002"; py "1001"] Demo.start).2)
  = [VIEW_URL (py "1001"); VIEW_URL (py "1002")].
Proof.
  destruct (articles_in_sorted_order Demo.ascii_only Demo.host Demo.os (py "msit-docs") 1
              [py "1002"; py "1001"] Demo.start) as (_ & Hall & _).
  rewrite (Hall _ ltac:(vm_compute; reflexivity)). reflexivity.
Defined.

(** ** Running the program again *)

Section Replay.
Variable U : unicode_db.
Context {World : Type}.
Variable network : World -> list pystr -> World * option bytes * outcome CompletedProcess.
Variable os_error : oscall -> option exn.
Hypothesis network_stateless : stateless network.
Variable dir : pystr.
Variable delay : float.
Implicit Types st : state World.
Implicit Types t : gmap pystr Z.

Lemma tally_le_refl t : tally_le t t.
Proof. intros e n Hn. exists n. split; [done|lia]. Qed.

Lemma tally_ok_insert t e n : tally_ok t -> tally_ok (<[e := n]> t).
Proof.
  intros Hok e' He'. destruct (decide (e = e')) as [->|Hne].
  - rewrite lookup_insert_eq. eauto.
  - rewrite lookup_insert_ne by done. by apply Hok.
Qed.

Lemma tally_le_insert_r t1 t2 e m :
  tally_le t1 t2 -> t2 !! e = Some m -> tally_le t1 (<[e := m + 1]> t2).
Proof.
  intros Hle Hm e' n Hn. destruct (Hle e' n Hn) as (m' & Hm' & Hnm).
  destruct (decide (e = e')) as [->|Hne].
  - rewrite lookup_insert_eq. exists (m + 1). split; [done|]. simplify_eq. lia.
  - rewrite lookup_insert_ne by done. eauto.
Qed.

Lemma tally_le_insert_both t1 t2 e n m :
  tally_le t1 t2 -> t1 !! e = Some n -> t2 !! e = Some m ->
  tally_le (<[e := n + 1]> t1) (<[e := m + 1]> t2).
Proof.
  intros Hle Hn Hm e' n'. destruct (decide (e = e')) as [->|Hne].
  - rewrite !lookup_insert_eq. intros [= <-]. exists (m + 1). split; [done|].
    destruct (Hle e' n Hn) as (m' & Hm' & Hnm). simplify_eq. lia.
  - rewrite !lookup_insert_ne by done. apply Hle.
Qed.

Lemma replay_download_one ntt_id :
  replays (fun f => download_one World network os_error dir delay ntt_id f).
Proof.
  intros f t1 s1 t1' s1' t2 s2 Hrun Hsub Hle Hok.
  destruct (decide (ext f ∈ accepted_exts)) as [Hext|Hext].
  2:{ rewrite download_one_rejected in Hrun |- * by done. simplify_eq. eauto 10. }
  destruct (Hok _ Hext) as [m Hm].
  pose proof (download_one_tally _ _ _ _ _ _ _ _ _ _ Hrun) as Htally.
  destruct (fs s2 !! outpath_of dir ntt_id (ext f)) as [c2|] eqn:Hp2.
  - rewrite (download_one_skip network os_error dir delay ntt_id f t2 s2 c2 m) by done.
    eexists _, _. split_and!; [done|done| |by apply tally_ok_insert].
    destruct Htally as [->|(_ & _ & n & Hn & ->)].
    + by apply tally_le_insert_r.
    + by apply tally_le_insert_both.
  - assert (fs s1' !! outpath_of dir ntt_id (ext f) = None) as Hp1'.
    { destruct (fs s1' !! _) as [c|] eqn:Hq; [|done]. apply Hsub in Hq. congruence. }
    assert (fs s1 !! outpath_of dir ntt_id (ext f) = None) as Hp1.
    { destruct (fs s1 !! _) as [c|] eqn:Hq; [|done].
      pose proof (grows_download_one network os_error dir delay ntt_id f t1 s1)
        as (Hkeep & _).
      rewrite Hrun in Hkeep. apply Hkeep in Hq. simpl in Hq. congruence. }
    assert (t1' = t1) as ->.
    { destruct Htally as [->|(_ & [c Hc] & _)]; [done|congruence]. }
    rewrite download_one_absent in Hrun |- * by done.
    unfold bind at 1 in Hrun. unfold bind at 1.
    rewrite curl_download_unfold, subprocess_run_download in Hrun |- *.
    destruct (network_stateless (world s1) (world s2)
                (download_argv (atchFileNo f) (fileOrd f)
                   (outpath_of dir ntt_id (ext f)))) as [Hwr Hout].
    destruct (network (world s1) _) as [[w1 wr1] out1].
    destruct (network (world s2) _) as [[w2 wr2] out2].
    simpl in Hwr, Hout. subst wr2 out2. cbn [fst snd fs] in Hrun |- *.
    destruct out1 as [cp|e]; [|done].
    assert (match wr1 with Some c => <[outpath_of dir ntt_id (ext f) := c]> (fs s1)
                         | None => fs s1 end !! outpath_of dir ntt_id (ext f)
            = match wr1 with Some c => <[outpath_of dir ntt_id (ext f) := c]> (fs s2)
                           | None => fs s2 end !! outpath_of dir ntt_id (ext f)) as Hsame.
    { destruct wr1; [by rewrite !lookup_insert_eq|congruence]. }
    rewrite <- Hsame.
    destruct (usable_size cp _) as [n|] eqn:Hu.
    + exfalso. apply usable_size_Some in Hu as (_ & c & Hfile & -> & Hgt).
      unfold bind at 1 in Hrun.
      destruct (Z.eqb_spec (Z.of_nat (length c)) 0) as [?|_]; [lia|].
      unfold tally_incr in Hrun. destruct (t1 !! ext f); [|done].
      cbv beta iota delta [bind ret] in Hrun. rewrite time_sleep_run in Hrun.
      destruct (sleep_error _ _); [done|]. simplify_eq.
      cbn [fs slept] in Hp1'. congruence.
    + cbv beta iota delta [bind ret] in Hrun |- *.
      change (0 =? 0) with true in Hrun |- *. cbv beta iota in Hrun |- *.
      rewrite time_sleep_run in Hrun |- *.
      destruct (sleep_error _ _); [done|]. eexists _, _.
      split_and!; [done| |done|done]. unfold slept, without. cbn [fs].
      destruct wr1; [rewrite delete_insert_eq|]; by apply delete_id.
Qed.

Lemma replay_for_each {A} (body : A -> gmap pystr Z -> M World (gmap pystr Z)) :
  (forall x t, preserves (grows dir) (body x t)) ->
  replays body ->
  forall l t1 s1 t1' s1' t2 s2,
    for_each World l body t1 s1 = (Ok t1', s1') ->
    (forall q c, fs s1' !! q = Some c -> fs s2 !! q = Some c) ->
    tally_le t1 t2 -> tally_ok t2 ->
    exists t2' s2',
      for_each World l body t2 s2 = (Ok t2', s2')
      /\ fs s2' = fs s2 /\ tally_le t1' t2' /\ tally_ok t2'.
Proof.
  intros Hgrows Hbody. induction l as [|x l IH]; intros t1 s1 t1' s1' t2 s2.
  - intros [= <- <-] Hsub Hle Hok. by eexists _, _.
  - intros (tm & sm & Hstep & Hrest)%for_each_cons_Ok Hsub Hle Hok.
    pose proof (preserves_for_each (grows dir) l body tm Hgrows sm) as (Hkeep & _).
    rewrite Hrest in Hkeep. simpl in Hkeep.
    destruct (Hbody x t1 s1 tm sm t2 s2 Hstep) as (t2m & s2m & Hstep2 & Hfs & Hle2 & Hok2);
      [by eauto|done|done|].
    destruct (IH tm sm t1' s1' t2m s2m Hrest) as (t2' & s2' & Hrest2 & Hfs2 & Hle' & Hok');
      [by rewrite Hfs|done|done|].
    exists t2', s2'. simpl. rewrite (bind_ok _ _ _ _ _ Hstep2).
    split_and!; [done|congruence|done|done].
Qed.

Lemma replay_process_article : replays (process_article U World network os_error dir delay).
Proof.
  intros ntt_id t1 s1 t1' s1' t2 s2 Hrun Hsub Hle Hok.
  unfold process_article, try_except in Hrun |- *.
  rewrite get_file_info_run in Hrun |- *.
  destruct (network_stateless (world s1) (world s2) (get_argv (VIEW_URL ntt_id)))
    as [_ Hout].
  rewrite <- Hout. clear Hout.
  destruct (network (world s1) (get_argv (VIEW_URL ntt_id))).2 as [cp|e].
  - destruct (file_info_of U (stdout cp)) as [|f files].
    + cbv beta iota in Hrun |- *.
      apply sleep_then_ret_Ok in Hrun as (Hsleep & -> & ->).
      rewrite sleep_then_ret, Hsleep. eexists _, _. by split_and!.
    + cbv beta iota in Hrun |- *.
      unfold bind at 1 in Hrun. unfold bind at 1.
      destruct (for_each World (f :: files) _ t1 _) as [[tm|e] sm] eqn:Hloop; [|done].
      apply sleep_then_ret_Ok in Hrun as (Hsleep & -> & ->).
      set (s2a := {| world := (network (world s2) (get_argv (VIEW_URL ntt_id))).1.1;
                     fs := fs s2;
                     trace := trace s2 ++ [EvRun (get_argv (VIEW_URL ntt_id))] |}).
      destruct (replay_for_each _ (grows_download_one network os_error dir delay ntt_id)
                  (replay_download_one ntt_id) _ _ _ _ _ t2 s2a Hloop)
        as (t2' & s2' & Hloop2 & Hfs & Hle' & Hok'); [|done|done|].
      { intros q c Hq. cbn [fs]. by apply Hsub. }
      rewrite Hloop2, sleep_then_ret, Hsleep.
      eexists _, _. split_and!; [done| |done|done]. cbn [fs slept]. by rewrite Hfs.
  - destruct (is_Exception e); [|done].
    cbv beta iota in Hrun |- *.
    apply sleep_then_ret_Ok in Hrun as (Hsleep & -> & ->).
    rewrite sleep_then_ret, Hsleep. eexists _, _. by split_and!.
Qed.

End Replay.

Section Rerun.
Variable U : unicode_db.
Variables O1 O2 : set_order.
Context {World : Type}.
Variable network : World -> list pystr -> World * option bytes * outcome CompletedProcess.
Variable os_error : oscall -> option exn.
Implicit Types st : state World.

Lemma os_makedirs_Ok path st u st' :
  os_makedirs World os_error path st = (Ok u, st') ->
  path <> [] /\ fs st !! path = None /\ os_error (Makedirs path) = None
  /\ st' = {| world := world st; fs := fs st; trace := trace st ++ [EvMakedirs path] |}.
Proof.
  unfold os_makedirs. case_bool_decide as Hpath; [done|].
  case_bool_decide as Hfile; [done|]. cbn [orb].
  destruct (os_error _); [done|]. intros [= <- <-]. split_and!; [done| |done|done].
  destruct (fs st !! path) eqn:Hq; [|done]. destruct Hfile. eauto.
Qed.

Lemma os_makedirs_run path st :
  path <> [] -> fs st !! path = None -> os_error (Makedirs path) = None ->
  os_makedirs World os_error path st
  = (Ok tt, {| world := world st; fs := fs st; trace := trace st ++ [EvMakedirs path] |}).
Proof.
  intros Hpath Hfile Hos. unfold os_makedirs.
  rewrite bool_decide_false by done.
  rewrite bool_decide_false by (rewrite Hfile; by intros [? ?]).
  cbn [orb]. by rewrite Hos.
Qed.

Lemma scan_page_run O secs page acc st :
  scan_page U O World network os_error secs page acc st =
  let st1 := {| world := (network (world st) (get_argv (LIST_URL page))).1.1;
                fs := fs st;
                trace := trace st ++ [EvRun (get_argv (LIST_URL page))] |} in
  let sleep (ids : list pystr) :=
    match sleep_error os_error secs with
    | Some e' => (Raise e', st1)
    | None => (Ok ids, slept secs st1)
    end in
  match (network (world st) (get_argv (LIST_URL page))).2 with
  | Ok cp => sleep (acc ++ article_ids_of U O (stdout cp))
  | Raise e => if is_Exception e then sleep acc else (Raise e, st1)
  end.
Proof.
  unfold scan_page, try_except, get_article_ids, curl_get.
  unfold bind. rewrite subprocess_run_get. cbv zeta.
  destruct (network (world st) (get_argv (LIST_URL page))).2 as [cp|e];
    [|destruct (is_Exception e); [|done]];
    cbv beta iota delta [ret]; rewrite time_sleep_run; by destruct (sleep_error _ _).
Qed.

Lemma article_ids_of_elem O html x :
  x ∈ article_ids_of U O html <-> x ∈ detail_matches U html.
Proof. apply list_of_set_elem. Qed.

Lemma replay_scan secs pages :
  stateless network ->
  forall acc1 acc2 s1 s2 l1 s1',
    (forall x, x ∈ acc1 <-> x ∈ acc2) ->
    for_each World pages (scan_page U O1 World network os_error secs) acc1 s1 = (Ok l1, s1') ->
    exists l2 s2',
      for_each World pages (scan_page U O2 World network os_error secs) acc2 s2 = (Ok l2, s2')
      /\ (forall x, x ∈ l1 <-> x ∈ l2) /\ fs s2' = fs s2.
Proof.
  intros Hstateless. induction pages as [|page pages IH];
    intros acc1 acc2 s1 s2 l1 s1' Hacc.
  - intros [= <- <-]. by eexists _, _.
  - intros (a1 & sa & Hstep & Hrest)%for_each_cons_Ok.
    simpl. unfold bind at 1. rewrite scan_page_run in Hstep |- *.
    destruct (Hstateless (world s1) (world s2) (get_argv (LIST_URL page))) as [_ Hout].
    rewrite <- Hout. clear Hout. cbv zeta in Hstep |- *.
    destruct (network (world s1) (get_argv (LIST_URL page))).2 as [cp|e];
      [|destruct (is_Exception e); [|done]];
      (destruct (sleep_error os_error secs); [done|]).
    + simplify_eq.
      assert (forall x, x ∈ acc1 ++ article_ids_of U O1 (stdout cp)
                        <-> x ∈ acc2 ++ article_ids_of U O2 (stdout cp)) as Hacc'.
      { intros x. by rewrite !elem_of_app, !article_ids_of_elem, Hacc. }
      destruct (IH _ _ _
                  (slept secs {| world := (network (world s2) (get_argv (LIST_URL page))).1.1;
                            fs := fs s2;
                            trace := trace s2 ++ [EvRun (get_argv (LIST_URL page))] |})
                  _ _ Hacc' Hrest)
        as (l2 & s2' & Hloop & Hl & Hfs).
      eauto.
    + simplify_eq.
      destruct (IH _ _ _
                  (slept secs {| world := (network (world s2) (get_argv (LIST_URL page))).1.1;
                            fs := fs s2;
                            trace := trace s2 ++ [EvRun (get_argv (LIST_URL page))] |})
                  _ _ Hacc Hrest)
        as (l2 & s2' & Hloop & Hl & Hfs).
      eauto.
Qed.

Lemma initial_tally_ok : tally_ok initial_tally.
Proof.
  intros e He. apply elem_of_dom. rewrite initial_tally_dom.
  by apply elem_of_list_to_set.
Qed.

Lemma main_rerun (a : args) st0 t1 st1 st1r :
  stateless network ->
  main U O1 World network os_error a st0 = (Ok t1, st1) ->
  fs st1r = fs st1 ->
  exists t2 st2,
    main U O2 World network os_error a st1r = (Ok t2, st2)
    /\ fs st2 = fs st1 /\ tally_le t1 t2.
Proof.
  intros Hstateless Hrun Hfs.
  pose proof (grows_main U O1 network os_error a st0) as (_ & Hnew & _).
  rewrite Hrun in Hnew. cbn [snd] in Hnew.
  unfold main in Hrun |- *.
  unfold bind at 1 in Hrun.
  destruct (os_makedirs World os_error (outdir a) st0) as [[[]|e0] sA] eqn:Hmk; [|done].
  apply os_makedirs_Ok in Hmk as (Hdir & Hnofile & Hos & ->).
  assert (fs st1r !! outdir a = None) as Hnofile2.
  { rewrite Hfs. destruct (fs st1 !! outdir a) as [c|] eqn:Hq; [|done].
    assert (is_target (outdir a) (outdir a)) as Htarget by (apply Hnew; eauto).
    apply target_longer in Htarget. lia. }
  unfold bind at 1. rewrite (os_makedirs_run _ _ Hdir Hnofile2 Hos).
  unfold bind at 1 in Hrun. unfold bind at 1.
  unfold scan_pages in Hrun |- *. unfold bind at 1 in Hrun. unfold bind at 1.
  destruct (for_each World (range 1 (pages a + 1))
              (scan_page U O1 World network os_error (delay a)) [] _)
    as [[l1|e] sB1] eqn:Hscan1; [|done].
  destruct (replay_scan _ _ Hstateless [] [] _
              {| world := world st1r; fs := fs st1r;
                 trace := trace st1r ++ [EvMakedirs (outdir a)] |}
              _ _ (fun x => reflexivity _) Hscan1)
    as (l2 & sB2 & Hscan2 & Hl & HfsB).
  rewrite Hscan2. cbv beta iota delta [ret] in Hrun |- *.
  unfold process_articles in Hrun |- *.
  assert (sorted (list_of_set O2 l2) = sorted (list_of_set O1 l1)) as Hsame.
  { apply sorted_unique, NoDup_Permutation; [apply list_of_set_NoDup..|].
    intros x. by rewrite !list_of_set_elem. }
  rewrite Hsame.
  destruct (replay_for_each (outdir a) _
              (grows_process_article U network os_error (outdir a) (delay a))
              (replay_process_article U network os_error Hstateless (outdir a) (delay a))
              _ _ _ _ _ initial_tally sB2 Hrun)
    as (t2 & st2 & Hloop2 & Hfs2 & Hle & _).
  - intros q c Hq. rewrite HfsB. cbn [fs]. by rewrite Hfs.
  - apply tally_le_refl.
  - apply initial_tally_ok.
  - exists t2, st2. split_and!; [done| |done].
    rewrite Hfs2, HfsB. cbn [fs]. done.
Qed.

(** C5: an attachment whose output file is already there is counted with
    no request and no write: the state, trace included, is left as it was.
    And a second run against a host that answers as before, started on the
    files the first run left, returns as the first did, leaves the file
    system exactly as it found it, sends no download to a path that
    existed, and counts at least what the first run counted. *)
Theorem existing_files_are_skipped :
  (forall dir secs ntt_id f t st c,
      ext f ∈ accepted_exts ->
      fs st !! outpath_of dir ntt_id (ext f) = Some c ->
      tally_ok t ->
      exists n,
        t !! ext f = Some n
        /\ download_one World network os_error dir secs ntt_id f t st
           = (Ok (<[ext f := n + 1]> t), st))
  /\ (stateless network ->
      forall a st0 t1 st1 st1r,
        main U O1 World network os_error a st0 = (Ok t1, st1) ->
        fs st1r = fs st1 ->
        exists t2 st2,
          main U O2 World network os_error a st1r = (Ok t2, st2)
          /\ fs st2 = fs st1
          /\ (forall ev q, ev ∈ new_events st1r st2 -> writes_to ev q ->
                fs st1 !! q = None)
          /\ tally_le t1 t2).
Proof.
  split.
  - intros dir secs ntt_id f t st c Hext Hc Hok. destruct (Hok _ Hext) as [n Hn].
    exists n. split; [done|]. by eapply download_one_skip.
  - intros Hstateless a st0 t1 st1 st1r Hrun Hfs.
    destruct (main_rerun a st0 t1 st1 st1r Hstateless Hrun Hfs)
      as (t2 & st2 & Hrun2 & Hfs2 & Hle).
    exists t2, st2. split_and!; [done|done| |done].
    destruct (grows_main U O2 network os_error a st1r) as (_ & _ & evs & Htr & Hevs).
    rewrite Hrun2 in Htr. cbn [snd] in Htr.
    intros ev q Hev Hq. rewrite (new_events_app _ _ _ Htr) in Hev.
    rewrite Forall_forall in Hevs. destruct (Hevs ev Hev q Hq) as [Hnone _].
    by rewrite <- Hfs.
Qed.

End Rerun.

Lemma demo_host_stateless : stateless Demo.host.
Proof.
  intros w w' argv. unfold Demo.host.
  destruct (argv !! 4%nat), (argv !! 5%nat); repeat case_decide; done.
Qed.

Lemma demo_first_run :
  exists t1 st1,
    main Demo.ascii_only Demo.first_seen nat Demo.host Demo.os Demo.cli Demo.start = (Ok t1, st1).
Proof. eexists _, _. vm_compute. reflexivity. Qed.

(** The scripted host twice: the second run returns and leaves the file
    system as the first run left it. *)
Lemma existing_files_are_skipped_witness :
  exists t1 st1 t2 st2,
    main Demo.ascii_only Demo.first_seen nat Demo.host Demo.os Demo.cli Demo.start = (Ok t1, st1)
    /\ main Demo.ascii_only Demo.first_seen nat Demo.host Demo.os Demo.cli st1 = (Ok t2, st2)
    /\ fs st2 = fs st1.
Proof.
  destruct (existing_files_are_skipped Demo.ascii_only Demo.first_seen Demo.first_seen
              Demo.host Demo.os) as (_ & Hrerun).
  destruct demo_first_run as (t1 & st1 & Hrun1).
  destruct (Hrerun demo_host_stateless Demo.cli Demo.start t1 st1 st1 Hrun1 eq_refl)
    as (t2 & st2 & Hrun2 & Hfs & _).
  exists t1, st1, t2, st2. split; [exact Hrun1|]. split; [exact Hrun2|exact Hfs].
Defined.

(** * Further properties *)

(** ** What a run leaves on disk *)

Section Disk.
Variable U : unicode_db.
Variable O : set_order.
Context {World : Type}.
Variable network : World -> list pystr -> World * option bytes * outcome CompletedProcess.
Variable os_error : oscall -> option exn.
Implicit Types st : state World.

(** X1: a run of [main] never changes or removes a file that was there
    before, whether it returns or is cut short by an exception. *)
Theorem main_keeps_existing_files (a : args) st q c :
  fs st !! q = Some c ->
  fs (main U O World network os_error a st).2 !! q = Some c.
Proof.
  intros Hq. destruct (grows_main U O network os_error a st) as (Hkeep & _).
  by apply Hkeep.
Qed.

#[local] Instance adds_documents_preorder : PreOrder (adds_documents (World:=World)).
Proof.
  split.
  - intros st. split; [done|]. intros q c Hq Hq'. congruence.
  - intros st1 st2 st3 [Hkeep1 Hbig1] [Hkeep2 Hbig2]. split; [by eauto|].
    intros q c Hq Hq3. destruct (fs st2 !! q) as [c2|] eqn:Hq2.
    + pose proof (Hkeep2 _ _ Hq2) as Hq3'. simplify_eq. by eapply Hbig1.
    + by eapply Hbig2.
Qed.

Lemma completes_bind {A B} R `{!PreOrder R} (m : M World A) (k : A -> M World B) :
  completes R m -> (forall a, completes R (k a)) -> completes R (bind World m k).
Proof.
  intros Hm Hk st b st'. unfold bind.
  destruct (m st) as [[a|e] st1] eqn:Hrun; [|done].
  intros Hk'. etrans; [by eapply Hm|by eapply Hk].
Qed.

Lemma completes_try_except {A B} R `{!PreOrder R} (m : M World A)
    (k : A -> M World B) h :
  preserves R m -> (forall a, completes R (k a)) -> (forall e, completes R (h e)) ->
  completes R (try_except World m k h).
Proof.
  intros Hm Hk Hh st b st'. unfold try_except. specialize (Hm st).
  destruct (m st) as [[a|e] st1]; simpl in Hm.
  - intros Hk'. etrans; [done|by eapply Hk].
  - destruct (is_Exception e); [|done]. intros Hh'. etrans; [done|by eapply Hh].
Qed.

Lemma completes_for_each {A S} R `{!PreOrder R} (l : list A)
    (body : A -> S -> M World S) acc :
  (forall x a, completes R (body x a)) -> completes R (for_each World l body acc).
Proof.
  intros Hbody. revert acc. induction l as [|x l IH]; intros acc; simpl.
  - intros st a st' [= <- <-]. reflexivity.
  - apply completes_bind; [done|apply Hbody|apply IH].
Qed.

Lemma preserves_completes {A} R (m : M World A) : preserves R m -> completes R m.
Proof. intros Hm st a st' Hrun. specialize (Hm st). by rewrite Hrun in Hm. Qed.

Lemma same_files_adds st st' : fs st' = fs st -> adds_documents st st'.
Proof. intros Hfs. unfold adds_documents. rewrite Hfs. split; [done|]. congruence. Qed.

Lemma documents_time_sleep secs :
  preserves adds_documents (time_sleep World os_error secs).
Proof.
  unfold time_sleep. destruct (sleep_error _ _); [apply preserves_raise, _|].
  intros st. by apply same_files_adds.
Qed.

Lemma documents_os_makedirs path :
  preserves adds_documents (os_makedirs World os_error path).
Proof.
  intros st. apply same_files_adds. unfold os_makedirs.
  destruct (_ || _); [done|]. by destruct (os_error _).
Qed.

Lemma documents_curl_get url : preserves adds_documents (curl_get World network url).
Proof.
  intros st. apply same_files_adds. unfold curl_get, bind.
  rewrite subprocess_run_get. by destruct (network _ _).2.
Qed.

Lemma documents_curl_download a o p st n st' :
  fs st !! p = None ->
  curl_download World network a o p st = (Ok n, st') -> adds_documents st st'.
Proof.
  intros Hp. rewrite curl_download_unfold, subprocess_run_download.
  destruct (network (world st) (download_argv a o p)) as [[w' wr] out].
  cbn [fst snd]. destruct out as [cp|e]; [|done].
  destruct (usable_size cp _) as [m|] eqn:Hu.
  - apply usable_size_Some in Hu as (_ & c & Hc & -> & Hgt). cbn [fs] in Hc.
    intros [= <- <-]. split; cbn [fs].
    + intros q c' Hq. destruct wr; [|done]. rewrite lookup_insert_ne; [done|congruence].
    + intros q c' Hq Hq'. destruct (decide (q = p)) as [->|Hne]; [by simplify_eq|].
      destruct wr; [rewrite lookup_insert_ne in Hq' by done|]; congruence.
  - intros [= <- <-]. apply same_files_adds. unfold without. cbn [fs].
    destruct wr; [rewrite delete_insert_eq|]; by apply delete_id.
Qed.

Lemma documents_download_one dir secs ntt_id f t :
  completes adds_documents (download_one World network os_error dir secs ntt_id f t).
Proof.
  intros st t' st'.
  destruct (decide (ext f ∈ accepted_exts)) as [Hext|Hext];
    [|rewrite download_one_rejected by done; intros [= <- <-]; reflexivity].
  destruct (fs st !! outpath_of dir ntt_id (ext f)) as [c|] eqn:Hc.
  - rewrite (download_one_present network os_error dir secs ntt_id f t st c) by done.
    intros [-> _]%tally_incr_Ok. reflexivity.
  - rewrite download_one_absent by done. unfold bind at 1.
    destruct (curl_download World network _ _ _ st) as [[n|e] st1] eqn:Hdl; [|done].
    pose proof (documents_curl_download _ _ _ _ _ _ Hc Hdl) as Hdocs.
    intros Hrest. etrans; [exact Hdocs|]. revert Hrest.
    apply (completes_bind adds_documents).
    + destruct (n =? 0); apply preserves_completes;
        [apply preserves_ret, _|apply preserves_tally_incr, _].
    + intros t1. apply completes_bind; [apply _| |].
      * apply preserves_completes, documents_time_sleep.
      * intros _. apply preserves_completes, preserves_ret, _.
Qed.

Lemma documents_process_article dir secs ntt_id t :
  completes adds_documents (process_article U World network os_error dir secs ntt_id t).
Proof.
  apply completes_try_except; [apply _| | |].
  - apply preserves_bind; [apply _|apply documents_curl_get|].
    intros. apply preserves_ret, _.
  - intros [|f files].
    + apply preserves_completes, preserves_bind; [apply _|apply documents_time_sleep|].
      intros. apply preserves_ret, _.
    + apply completes_bind; [apply _| |].
      * apply completes_for_each; [apply _|]. intros. apply documents_download_one.
      * intros. apply preserves_completes, preserves_bind;
          [apply _|apply documents_time_sleep|]. intros. apply preserves_ret, _.
  - intros. apply preserves_completes, preserves_bind;
      [apply _|apply documents_time_sleep|]. intros. apply preserves_ret, _.
Qed.

(** X2: when [main] returns, every file that was not there before has more
    than 100 bytes. *)
Theorem main_new_files_are_documents (a : args) st t st' q c :
  main U O World network os_error a st = (Ok t, st') ->
  fs st !! q = None -> fs st' !! q = Some c ->
  100 < Z.of_nat (length c).
Proof.
  intros Hrun. assert (adds_documents st st') as [_ Hbig]; [|by apply Hbig].
  revert Hrun. apply (completes_bind adds_documents).
  - apply preserves_completes, documents_os_makedirs.
  - intros _. apply completes_bind; [apply _| |].
    + apply preserves_completes, preserves_bind; [apply _| |intros; apply preserves_ret, _].
      apply preserves_for_each; [apply _|]. intros page acc.
      apply preserves_bind; [apply _| |].
      * apply preserves_try_except; [apply _| | |]; try (intros; apply preserves_ret, _).
        apply preserves_bind; [apply _|apply documents_curl_get|].
        intros. apply preserves_ret, _.
      * intros. apply preserves_bind; [apply _|apply documents_time_sleep|].
        intros. apply preserves_ret, _.
    + intros ids. apply completes_for_each; [apply _|].
      intros. apply documents_process_article.
Qed.

End Disk.

Lemma demo_first_run_file :
  exists t1 st1,
    main Demo.ascii_only Demo.first_seen nat Demo.host Demo.os Demo.cli Demo.start = (Ok t1, st1)
    /\ fs st1 !! py "msit-docs/msit-1001.hwp" = Some (Demo.payload 500).
Proof. eexists _, _. split; vm_compute; reflexivity. Qed.

Lemma demo_keeps_notes :
  fs {| world := O; fs := {[ py "notes.txt" := Demo.payload 3 ]}; trace := [] |}
    !! py "notes.txt" = Some (Demo.payload 3).
Proof. vm_compute. reflexivity. Qed.

(** A file of three bytes next to the downloads survives a run against the
    scripted host. *)
Lemma main_keeps_existing_files_witness :
  fs (main Demo.ascii_only Demo.first_seen nat Demo.host Demo.os Demo.cli
        {| world := O; fs := {[ py "notes.txt" := Demo.payload 3 ]}; trace := [] |}).2
    !! py "notes.txt" = Some (Demo.payload 3).
Proof.
  apply (main_keeps_existing_files Demo.ascii_only Demo.first_seen Demo.host Demo.os
           Demo.cli _ _ _ demo_keeps_notes).
Defined.

(** The one file the run against the scripted host adds. *)
Lemma main_new_files_are_documents_witness :
  100 < Z.of_nat (length (Demo.payload 500)).
Proof.
  destruct demo_first_run_file as (t1 & st1 & Hrun & Hfile).
  apply (main_new_files_are_documents Demo.ascii_only Demo.first_seen Demo.host Demo.os
           Demo.cli Demo.start t1 st1 (py "msit-docs/msit-1001.hwp") _ Hrun eq_refl Hfile).
Defined.

(** ** One download, case by case *)

Section Outcomes.
Variable U : unicode_db.
Context {World : Type}.
Variable network : World -> list pystr -> World * option bytes * outcome CompletedProcess.
Variable os_error : oscall -> option exn.
Variable dir : pystr.
Variable delay : float.
Implicit Types st : state World.

Lemma subprocess_run_download_eq a o p st w' wr out :
  network (world st) (download_argv a o p) = (w', wr, out) ->
  subprocess_run World network (download_argv a o p) st
  = (out, after_run st w' (download_argv a o p) p wr).
Proof. intros Hnet. rewrite subprocess_run_download, Hnet. done. Qed.

(** X3: when [subprocess.run] raises during a download, nothing is cleaned
    up and nothing catches it: [download_one] raises the same exception
    with whatever curl wrote left at the output path and no delay observed,
    the loop over the descriptors stops there, and the article as a whole
    raises, also for an [Exception]. *)
Theorem download_exception_aborts ntt_id f rest t st w' wr e :
  ext f ∈ accepted_exts ->
  fs st !! outpath_of dir ntt_id (ext f) = None ->
  network (world st)
    (download_argv (atchFileNo f) (fileOrd f) (outpath_of dir ntt_id (ext f)))
  = (w', wr, Raise e) ->
  let st1 := after_run st w'
               (download_argv (atchFileNo f) (fileOrd f) (outpath_of dir ntt_id (ext f)))
               (outpath_of dir ntt_id (ext f)) wr in
  download_one World network os_error dir delay ntt_id f t st = (Raise e, st1)
  /\ fs st1 !! outpath_of dir ntt_id (ext f) = wr
  /\ for_each World (f :: rest) (download_one World network os_error dir delay ntt_id) t st
     = (Raise e, st1)
  /\ (forall st0,
        get_file_info U World network ntt_id st0 = (Ok (f :: rest), st) ->
        process_article U World network os_error dir delay ntt_id t st0 = (Raise e, st1)).
Proof.
  intros Hext Hnone Hnet st1.
  assert (download_one World network os_error dir delay ntt_id f t st = (Raise e, st1)) as Hone.
  { rewrite download_one_absent by done. unfold bind at 1.
    rewrite curl_download_unfold.
    by rewrite (subprocess_run_download_eq _ _ _ _ _ _ _ Hnet). }
  assert (for_each World (f :: rest) (download_one World network os_error dir delay ntt_id) t st
          = (Raise e, st1)) as Hloop.
  { simpl. by rewrite (bind_raise _ _ _ _ _ Hone). }
  split_and!; [done| |done|].
  - subst st1. unfold after_run. cbn [fs].
    destruct wr; [by rewrite lookup_insert_eq|done].
  - intros st0 Hget. unfold process_article, try_except. rewrite Hget.
    by rewrite (bind_raise _ _ _ _ _ Hloop).
Qed.

(** X4: when curl has run for an attachment that was not there, either its
    answer passes the check (exit status 0, a file of more than 100 bytes)
    and then that very content is at the output path, or it does not and
    then the file system is as before; either way the trace gains the curl
    run.  Then comes the half delay.  When it returns, the trace gains it,
    and the counter of the extension is one higher in the first case and
    the tally as before in the second.  When it raises, its exception comes
    out of [download_one]: a downloaded file stays and no tally is
    returned. *)
Theorem download_one_outcome ntt_id f t st w' wr cp n :
  ext f ∈ accepted_exts ->
  fs st !! outpath_of dir ntt_id (ext f) = None ->
  t !! ext f = Some n ->
  network (world st)
    (download_argv (atchFileNo f) (fileOrd f) (outpath_of dir ntt_id (ext f)))
  = (w', wr, Ok cp) ->
  let p := outpath_of dir ntt_id (ext f) in
  let ran := trace st ++ [EvRun (download_argv (atchFileNo f) (fileOrd f) p)] in
  let half := (delay * 0.5)%float in
  (forall c, wr = Some c -> returncode cp = 0 -> 100 < Z.of_nat (length c) ->
     download_one World network os_error dir delay ntt_id f t st
     = match sleep_error os_error half with
       | None =>
           (Ok (<[ext f := n + 1]> t),
            {| world := w'; fs := <[p := c]> (fs st); trace := ran ++ [EvSleep half] |})
       | Some e =>
           (Raise e, {| world := w'; fs := <[p := c]> (fs st); trace := ran |})
       end)
  /\ ((wr = None \/ returncode cp <> 0
       \/ exists c, wr = Some c /\ Z.of_nat (length c) <= 100) ->
      download_one World network os_error dir delay ntt_id f t st
      = match sleep_error os_error half with
        | None =>
            (Ok t, {| world := w'; fs := fs st; trace := ran ++ [EvSleep half] |})
        | Some e => (Raise e, {| world := w'; fs := fs st; trace := ran |})
        end).
Proof.
  intros Hext Hnone Hn Hnet p ran half. subst p ran half.
  rewrite download_one_absent by done.
  split; [intros c Hwr Hrc Hlen|intros Hbad]; unfold bind at 1;
    rewrite curl_download_unfold, (subprocess_run_download_eq _ _ _ _ _ _ _ Hnet);
    unfold after_run; cbn [fs].
  - subst wr. rewrite lookup_insert_eq.
    assert (usable_size cp (Some c) = Some (Z.of_nat (length c))) as ->.
    { apply usable_size_Some. eauto 10. }
    unfold bind at 1. destruct (Z.eqb_spec (Z.of_nat (length c)) 0); [lia|].
    unfold tally_incr. rewrite Hn. unfold ret at 1. cbv beta iota.
    rewrite sleep_then_ret. by destruct (sleep_error _ _).
  - assert (usable_size cp
              (match wr with
               | Some c => <[outpath_of dir ntt_id (ext f) := c]> (fs st)
               | None => fs st
               end !! outpath_of dir ntt_id (ext f)) = None) as ->.
    { destruct (usable_size cp _) as [m|] eqn:Hu; [|done].
      apply usable_size_Some in Hu as (Hrc & c & Hc & -> & Hgt).
      destruct Hbad as [->|[?|(c' & -> & Hle)]]; [congruence|done|].
      rewrite lookup_insert_eq in Hc. simplify_eq. lia. }
    assert (delete (outpath_of dir ntt_id (ext f))
              (match wr with
               | Some c => <[outpath_of dir ntt_id (ext f) := c]> (fs st)
               | None => fs st
               end) = fs st) as Hclean.
    { destruct wr; [rewrite delete_insert_eq|]; by apply delete_id. }
    unfold bind at 1. change (0 =? 0) with true. unfold ret at 1. cbv beta iota.
    rewrite sleep_then_ret. unfold slept, without. cbn [world fs trace].
    rewrite Hclean. by destruct (sleep_error _ _).
Qed.

(** X5: [curl_download] onto a path where a file already is, when curl
    writes nothing: the old file is taken for the download and its size
    returned if curl exited 0 and the file has more than 100 bytes;
    otherwise the old file is removed and 0 returned. *)
Theorem curl_download_stale_file a o p st c w' cp :
  fs st !! p = Some c ->
  network (world st) (download_argv a o p) = (w', None, Ok cp) ->
  let r := curl_download World network a o p st in
  (returncode cp = 0 -> 100 < Z.of_nat (length c) ->
     r.1 = Ok (Z.of_nat (length c)) /\ fs r.2 = fs st)
  /\ (returncode cp <> 0 \/ Z.of_nat (length c) <= 100 ->
      r.1 = Ok 0 /\ fs r.2 = delete p (fs st)).
Proof.
  intros Hc Hnet r. subst r.
  rewrite curl_download_unfold, (subprocess_run_download_eq _ _ _ _ _ _ _ Hnet).
  unfold after_run. cbn [fs]. rewrite Hc. split.
  - intros Hrc Hlen.
    assert (usable_size cp (Some c) = Some (Z.of_nat (length c))) as ->; [|done].
    apply usable_size_Some. eauto 10.
  - intros Hbad.
    assert (usable_size cp (Some c) = None) as ->; [|done].
    destruct (usable_size cp _) as [m|] eqn:Hu; [|done].
    apply usable_size_Some in Hu as (Hrc & c' & [= <-] & -> & Hgt).
    destruct Hbad; [done|lia].
Qed.

End Outcomes.

(** A download from the host that times out: the exception comes out of
    [download_one] and the seven bytes stay. *)
Lemma download_exception_aborts_witness :
  exists st1,
    download_one nat Faulty.host Demo.os (py "msit-docs") 1 (py "1001") Demo.hwp_55_1
      initial_tally Demo.start = (Raise TimeoutExpired, st1)
    /\ fs st1 !! py "msit-docs/msit-1001.hwp" = Some (Demo.payload 7).
Proof.
  destruct (download_exception_aborts Demo.ascii_only Faulty.host Demo.os
              (py "msit-docs") 1 (py "1001") Demo.hwp_55_1 [] initial_tally Demo.start
              1%nat (Some (Demo.payload 7)) TimeoutExpired
              ltac:(by left) eq_refl eq_refl) as (Hone & Hfile & _).
  eexists. split; [exact Hone|exact Hfile].
Defined.

(** The good download of the scripted host: one more hwp. *)
Lemma download_one_outcome_witness :
  (download_one nat Demo.host Demo.os (py "msit-docs") 1 (py "1001") Demo.hwp_55_1
     initial_tally Demo.start).1
  = Ok (<[py "hwp" := 0 + 1]> initial_tally).
Proof.
  destruct (download_one_outcome Demo.host Demo.os (py "msit-docs") 1 (py "1001")
              Demo.hwp_55_1
              initial_tally Demo.start 1%nat (Some (Demo.payload 500))
              {| returncode := 0; stdout := [] |} 0
              ltac:(by left) eq_refl eq_refl eq_refl) as [Hgood _].
  rewrite (Hgood (Demo.payload 500) eq_refl eq_refl ltac:(vm_compute; reflexivity)).
  reflexivity.
Defined.

(** A curl that writes nothing, onto a path where a document is: the old
    document is reported as the download. *)
Lemma curl_download_stale_file_witness :
  (curl_download nat Faulty.silent (py "55") (py "1") (py "msit-docs/msit-1001.hwp")
     Faulty.with_file).1 = Ok 500.
Proof.
  destruct (curl_download_stale_file Faulty.silent (py "55") (py "1")
              (py "msit-docs/msit-1001.hwp") Faulty.with_file (Demo.payload 500)
              1%nat {| returncode := 0; stdout := [] |}
              ltac:(vm_compute; reflexivity) eq_refl) as [Hkeep _].
  destruct (Hkeep eq_refl ltac:(vm_compute; reflexivity)) as [Hr _].
  rewrite Hr. reflexivity.
Defined.

(** ** The scan of the listing pages *)

Section Scan.
Variable U : unicode_db.
Variable O : set_order.
Context {World : Type}.
Variable network : World -> list pystr -> World * option bytes * outcome CompletedProcess.
Variable os_error : oscall -> option exn.
Implicit Types st : state World.

Lemma list_of_set_nil : list_of_set O [] = [].
Proof.
  destruct (list_of_set O []) as [|x l] eqn:Hl; [done|].
  assert (x ∈ list_of_set O []) as Hx by (rewrite Hl; by left).
  apply list_of_set_elem in Hx. by apply elem_of_nil in Hx.
Qed.

Lemma range_empty lo hi : hi <= lo -> range lo hi = [].
Proof. intros Hle. unfold range. by replace (Z.to_nat (hi - lo)) with 0%nat by lia. Qed.

(** X6: with a page count of zero or less, [main] does nothing but create
    the output directory.  When [os.makedirs] returns, [main] returns with
    no request, no file and every counter at zero; when the output
    directory is the empty path or a regular file, [os.makedirs] raises
    [OSError], and when it raises for another reason, that exception ends
    the run, in both cases with nothing done. *)
Theorem main_without_pages (a : args) st :
  pages a <= 0 ->
  (outdir a <> [] -> fs st !! outdir a = None ->
   os_error (Makedirs (outdir a)) = None ->
   main U O World network os_error a st
   = (Ok initial_tally,
      {| world := world st; fs := fs st;
         trace := trace st ++ [EvMakedirs (outdir a)] |}))
  /\ (outdir a = [] \/ is_Some (fs st !! outdir a) ->
      main U O World network os_error a st = (Raise OSError, st))
  /\ (forall e,
        outdir a <> [] -> fs st !! outdir a = None ->
        os_error (Makedirs (outdir a)) = Some e ->
        main U O World network os_error a st = (Raise e, st)).
Proof.
  intros Hpages.
  assert (forall s,
            bind World (scan_pages U O World network os_error (delay a) (pages a))
              (process_articles U World network os_error (outdir a) (delay a)) s
            = (Ok initial_tally, s)) as Hrest.
  { intros s. unfold scan_pages, process_articles. rewrite range_empty by lia.
    cbv beta iota delta [bind ret for_each]. by rewrite list_of_set_nil. }
  unfold main. split_and!.
  - intros Hdir Hfile Hos. unfold bind at 1.
    rewrite (os_makedirs_run os_error _ _ Hdir Hfile Hos). apply Hrest.
  - intros Hbad. unfold bind at 1, os_makedirs.
    assert (bool_decide (outdir a = []) || bool_decide (is_Some (fs st !! outdir a))
            = true) as ->; [|done].
    destruct Hbad; [by rewrite bool_decide_true by done|].
    rewrite (bool_decide_true (is_Some _)) by done. apply orb_true_r.
  - intros e Hdir Hfile Hos. unfold bind at 1, os_makedirs.
    rewrite bool_decide_false by done.
    rewrite bool_decide_false by (rewrite Hfile; by intros [? ?]).
    cbn [orb]. by rewrite Hos.
Qed.

Lemma scan_loop_fetches secs pages acc st :
  exists evs,
    trace (for_each World pages (scan_page U O World network os_error secs) acc st).2
    = trace st ++ evs
    /\ fs (for_each World pages (scan_page U O World network os_error secs) acc st).2 = fs st
    /\ fetched_urls evs `prefix_of` map LIST_URL pages
    /\ (forall ids,
          (for_each World pages (scan_page U O World network os_error secs) acc st).1 = Ok ids ->
          fetched_urls evs = map LIST_URL pages).
Proof.
  revert acc st. induction pages as [|page pages IH]; intros acc st.
  - exists []. simpl. by rewrite app_nil_r.
  - simpl. unfold bind. rewrite scan_page_run. cbv zeta.
    destruct (network (world st) (get_argv (LIST_URL page))).2 as [cp|e];
      [|destruct (is_Exception e)];
      try destruct (sleep_error os_error secs) as [e'|];
      try (exists [EvRun (get_argv (LIST_URL page))];
           split_and!; [done|done| |done];
           rewrite fetched_urls_get; apply prefix_cons, prefix_nil).
    + destruct (IH (acc ++ article_ids_of U O (stdout cp))
                  (slept secs {| world := (network (world st) (get_argv (LIST_URL page))).1.1;
                            fs := fs st;
                            trace := trace st ++ [EvRun (get_argv (LIST_URL page))] |}))
        as (evs & Htr & Hfs & Hpre & Hall).
      exists (EvRun (get_argv (LIST_URL page)) :: EvSleep secs :: evs).
      rewrite Htr, Hfs. split_and!.
      * unfold slept. cbn [trace]. by rewrite <- !app_assoc.
      * done.
      * rewrite fetched_urls_get. by apply prefix_cons.
      * intros ids Hids. rewrite fetched_urls_get. f_equal. by eapply Hall.
    + destruct (IH acc
                  (slept secs {| world := (network (world st) (get_argv (LIST_URL page))).1.1;
                            fs := fs st;
                            trace := trace st ++ [EvRun (get_argv (LIST_URL page))] |}))
        as (evs & Htr & Hfs & Hpre & Hall).
      exists (EvRun (get_argv (LIST_URL page)) :: EvSleep secs :: evs).
      rewrite Htr, Hfs. split_and!.
      * unfold slept. cbn [trace]. by rewrite <- !app_assoc.
      * done.
      * rewrite fetched_urls_get. by apply prefix_cons.
      * intros ids Hids. rewrite fetched_urls_get. f_equal. by eapply Hall.
Qed.

(** X7: the scan asks for the listing pages 1, 2, ... in this order, one
    request each and no other page, all [n] of them when it returns (a
    failed page is not asked for again and does not end the scan), and it
    leaves the file system alone. *)
Theorem scan_fetches_pages_in_order secs n st :
  let r := scan_pages U O World network os_error secs n st in
  fs r.2 = fs st
  /\ fetched_urls (new_events st r.2) `prefix_of` map LIST_URL (range 1 (n + 1))
  /\ (forall ids, r.1 = Ok ids ->
        fetched_urls (new_events st r.2) = map LIST_URL (range 1 (n + 1)))
  /\ length (range 1 (n + 1)) = Z.to_nat n
  /\ (0 <= n -> forall i, (i < Z.to_nat n)%nat ->
        range 1 (n + 1) !! i = Some (1 + Z.of_nat i)).
Proof.
  intros r. subst r. unfold scan_pages.
  destruct (scan_loop_fetches secs (range 1 (n + 1)) [] st)
    as (evs & Htr & Hfs & Hpre & Hall).
  unfold bind. destruct (for_each World _ _ [] st) as [[l|e] st1];
    cbn [fst snd ret] in *; rewrite (new_events_app _ _ _ Htr).
  - split_and!; try done.
    + intros ids _. by eapply Hall.
    + unfold range. rewrite length_map, length_seq. f_equal. lia.
    + intros Hn i Hi. unfold range. rewrite list_lookup_fmap, lookup_seq_lt by lia. done.
  - split_and!; try done.
    + unfold range. rewrite length_map, length_seq. f_equal. lia.
    + intros Hn i Hi. unfold range. rewrite list_lookup_fmap, lookup_seq_lt by lia. done.
Qed.

(** X8: the ids the scan returns are pairwise different, also when several
    pages list the same article, and each is a nonempty string of decimal
    digits. *)
Theorem scan_returns_distinct_numeric_ids secs n st ids st' :
  scan_pages U O World network os_error secs n st = (Ok ids, st') ->
  NoDup ids /\ Forall (captured U Digit) ids.
Proof.
  unfold scan_pages, bind.
  destruct (for_each World _ _ [] st) as [[l|e] st1] eqn:Hloop; [|done].
  intros [= <- <-]. split; [apply list_of_set_NoDup|].
  assert (Forall (captured U Digit) l) as Hl.
  { eapply (for_each_inv (fun acc => Forall (captured U Digit) acc)); [|done|exact Hloop].
    intros page acc s acc' s' Hacc. rewrite scan_page_run. cbv zeta.
    destruct (network (world s) (get_argv (LIST_URL page))).2 as [cp|e];
      [|destruct (is_Exception e)]; try destruct (sleep_error os_error secs);
      intros [= <- <-]; [|done].
    apply Forall_app. split; [done|]. apply Forall_forall. intros x Hx.
    apply (detail_matches_numeric U (stdout cp)). by apply list_of_set_elem in Hx. }
  apply Forall_forall. intros x Hx. apply list_of_set_elem in Hx.
  rewrite Forall_forall in Hl. by apply Hl.
Qed.

(** X9: the exit status of curl is not looked at when a page is fetched;
    whatever it is, the captured output is taken for the page, so a
    transfer that failed without output gives an empty list of ids, resp.
    of descriptors, and no exception. *)
Theorem fetch_ignores_exit_status url st w' wr cp :
  network (world st) (get_argv url) = (w', wr, Ok cp) ->
  let st1 := {| world := w'; fs := fs st;
                trace := trace st ++ [EvRun (get_argv url)] |} in
  curl_get World network url st = (Ok (stdout cp), st1)
  /\ (forall page, url = LIST_URL page ->
        get_article_ids U O World network page st
        = (Ok (article_ids_of U O (stdout cp)), st1))
  /\ (forall ntt, url = VIEW_URL ntt ->
        get_file_info U World network ntt st = (Ok (file_info_of U (stdout cp)), st1))
  /\ (stdout cp = [] ->
      article_ids_of U O (stdout cp) = [] /\ file_info_of U (stdout cp) = []).
Proof.
  intros Hnet st1.
  assert (curl_get World network url st = (Ok (stdout cp), st1)) as Hget.
  { unfold curl_get, bind. rewrite subprocess_run_get, Hnet. done. }
  split_and!.
  - done.
  - intros page ->. unfold get_article_ids. by rewrite (bind_ok _ _ _ _ _ Hget).
  - intros ntt ->. unfold get_file_info. by rewrite (bind_ok _ _ _ _ _ Hget).
  - intros ->. split; [apply list_of_set_nil|done].
Qed.

End Scan.

(** ** A delay that is refused *)

Section Delay.
Variable U : unicode_db.
Variable O : set_order.
Context {World : Type}.
Variable network : World -> list pystr -> World * option bytes * outcome CompletedProcess.
Variable os_error : oscall -> option exn.
Implicit Types st : state World.

Lemma range_cons lo hi : lo < hi -> range lo hi = lo :: range (lo + 1) hi.
Proof.
  intros Hlt. unfold range.
  replace (Z.to_nat (hi - lo)) with (S (Z.to_nat (hi - (lo + 1)))) by lia.
  cbn [seq map]. f_equal; [lia|].
  rewrite <- seq_shift, map_map. apply map_ext. intros i. lia.
Qed.

(** X15: [time.sleep] refuses a delay that is negative or not a number, and
    a delay that is refused ends the run at the first delay: with at least
    one page to scan, [main] creates the output directory, asks for listing
    page 1, and then raises what [time.sleep] raises, with no other
    request made and no file written. *)
Theorem refused_delay_ends_run (a : args) st e :
  sleep_error os_error (delay a) = Some e ->
  1 <= pages a ->
  outdir a <> [] -> fs st !! outdir a = None ->
  os_error (Makedirs (outdir a)) = None ->
  (forall e', (network (world st) (get_argv (LIST_URL 1))).2 = Raise e' ->
     is_Exception e' = true) ->
  main U O World network os_error a st
  = (Raise e,
     {| world := (network (world st) (get_argv (LIST_URL 1))).1.1;
        fs := fs st;
        trace := trace st ++ [EvMakedirs (outdir a); EvRun (get_argv (LIST_URL 1))] |})
  /\ (forall secs,
        (secs <? 0)%float = true \/ is_nan secs = true ->
        is_Some (sleep_error os_error secs)).
Proof.
  intros Hsleep Hpages Hdir Hfile Hos Hfetch. split.
  - unfold main. unfold bind at 1. rewrite (os_makedirs_run os_error _ _ Hdir Hfile Hos).
    unfold bind at 1, scan_pages. unfold bind at 1.
    rewrite range_cons by lia. cbn [for_each]. unfold bind at 1.
    rewrite scan_page_run. cbv zeta. cbn [world fs trace]. rewrite Hsleep.
    destruct (network (world st) (get_argv (LIST_URL 1))).2 as [cp|e'] eqn:Hnet.
    + by rewrite <- app_assoc.
    + rewrite (Hfetch e' eq_refl). by rewrite <- app_assoc.
  - intros secs Hbad. unfold sleep_error.
    destruct (os_error (Sleep secs)); [by eexists|].
    destruct Hbad as [-> | ->]; [by eexists|]. rewrite orb_true_r. by eexists.
Qed.

End Delay.

(** ** What the extractors find is in the page *)

Section Occurrences.
Variable U : unicode_db.

Lemma match_here_sound p s g n :
  match_here U p s = Some (g, n) ->
  exists w rest, s = w ++ rest /\ length w = n /\ denotes U p w g.
Proof.
  revert s g n. induction p as [|[c|k|k] p IH]; intros s g n.
  - intros [= <- <-]. exists [], s. split_and!; [done|done|constructor].
  - simpl. destruct s as [|x s]; [done|].
    destruct (N.eqb_spec x c) as [->|]; [|done].
    destruct (match_here U p s) as [[g' n']|] eqn:Hm; [|done].
    intros [= <- <-]. destruct (IH _ _ _ Hm) as (w & rest & -> & <- & Hw).
    exists (c :: w), rest. split_and!; [done|done|by constructor].
  - assert (forall g n,
              match_here U (Star k :: p) s = Some (g, n) ->
              exists ws w rest,
                s = ws ++ w ++ rest /\ n = (length ws + length w)%nat
                /\ Forall (fun c => in_class U k c = true) ws /\ denotes U p w g) as Hstar.
    { clear g n. induction s as [|x s IHs]; intros g n; simpl in *.
      - intros Hm. destruct (IH _ _ _ Hm) as (w & rest & Hs & <- & Hw).
        exists [], w, rest. by split_and!.
      - destruct (in_class U k x) eqn:Hx.
        + destruct ((fix star (s : pystr) := _) s) as [[g' n']|] eqn:Hs.
          * intros [= <- <-].
            destruct (IHs _ _ eq_refl) as (ws & w & rest & -> & -> & Hws & Hw).
            exists (x :: ws), w, rest. split_and!; [done|done|by constructor|done].
          * intros Hm. destruct (IH _ _ _ Hm) as (w & rest & Hs' & <- & Hw).
            exists [], w, rest. by split_and!.
        + intros Hm. destruct (IH _ _ _ Hm) as (w & rest & Hs' & <- & Hw).
          exists [], w, rest. by split_and!. }
    intros Hm. destruct (Hstar _ _ Hm) as (ws & w & rest & -> & -> & Hws & Hw).
    exists (ws ++ w), rest. rewrite <- app_assoc, length_app.
    split_and!; [done|done|by constructor].
  - simpl.
    destruct ((fix more (s : pystr) := _) s) as [[[cap g'] n']|] eqn:Hmore; [|done].
    intros [= <- <-].
    assert (exists w rest,
              s = cap ++ w ++ rest /\ n' = (length cap + length w)%nat
              /\ captured U k cap /\ denotes U p w g')
      as (w & rest & -> & -> & Hcap & Hw).
    { revert cap g' n' Hmore. induction s as [|x s IHs]; intros cap g' n'; [done|].
      destruct (in_class U k x) eqn:Hx; [|done].
      destruct ((fix more (s : pystr) := _) s) as [[[cap1 g1] n1]|] eqn:Hs.
      - intros [= <- <- <-].
        destruct (IHs _ _ _ eq_refl) as (w & rest & -> & -> & [Hne Hall] & Hw).
        exists w, rest. split_and!; [done|done|split; [done|by constructor]|done].
      - destruct (match_here U p s) as [[g1 n1]|] eqn:Hm; [|done].
        intros [= <- <- <-]. destruct (IH _ _ _ Hm) as (w & rest & -> & <- & Hw).
        exists w, rest.
        split_and!; [done|done|split; [done|by repeat constructor]|done]. }
    exists (cap ++ w), rest. rewrite <- app_assoc, length_app.
    split_and!; [done|done|by constructor].
Qed.

Lemma findall_from_sound p skip s g :
  g ∈ findall_from U p skip s ->
  exists pre w post, s = pre ++ w ++ post /\ denotes U p w g.
Proof.
  revert skip. induction s as [|x s IH]; intros skip; simpl.
  - by intros ?%elem_of_nil.
  - assert (forall k, g ∈ findall_from U p k s ->
                      exists pre w post, x :: s = pre ++ w ++ post /\ denotes U p w g)
      as Hlater.
    { intros k (pre & w & post & -> & Hw)%IH. by exists (x :: pre), w, post. }
    destruct skip as [|k]; [|apply Hlater].
    destruct (match_here U p (x :: s)) as [[g' n]|] eqn:Hm; [|apply Hlater].
    intros [->|Hin]%elem_of_cons; [|by eapply Hlater].
    destruct (match_here_sound _ _ _ _ Hm) as (w & rest & Hs & _ & Hw).
    exists [], w, rest. by rewrite Hs.
Qed.

Lemma denotes_lits l p w g :
  denotes U (map Lit l ++ p) w g -> exists w', w = l ++ w' /\ denotes U p w' g.
Proof.
  revert w. induction l as [|c l IH]; intros w; simpl.
  - eauto.
  - intros Hw. inversion Hw as [|c' p' w1 g1 Hw1| |]; subst.
    destruct (IH _ Hw1) as (w' & -> & Hw'). eauto.
Qed.

Lemma denotes_nil_inv w g : denotes U [] w g -> w = [] /\ g = [].
Proof. intros Hw. by inversion Hw. Qed.

Lemma denotes_star_inv k p w g :
  denotes U (Star k :: p) w g ->
  exists ws w', w = ws ++ w' /\ Forall (fun c => in_class U k c = true) ws
                /\ denotes U p w' g.
Proof. intros Hw. inversion Hw; subst. eauto. Qed.

Lemma denotes_group_inv k p w g :
  denotes U (Group k :: p) w g ->
  exists cap w' g', w = cap ++ w' /\ g = cap :: g' /\ captured U k cap
                    /\ denotes U p w' g'.
Proof. intros Hw. inversion Hw; subst. eauto 10. Qed.

Lemma detail_pattern_denotes w g :
  denotes U detail_pattern w g ->
  exists id, g = [id] /\ w = py "fn_detail(" ++ id ++ py ")" /\ captured U Digit id.
Proof.
  unfold detail_pattern, lits.
  intros (w1 & -> & H1)%denotes_lits.
  apply denotes_group_inv in H1 as (id & w2 & g2 & -> & -> & Hid & H2).
  rewrite <- (app_nil_r (map Lit (py ")"))) in H2.
  apply denotes_lits in H2 as (w3 & -> & [-> ->]%denotes_nil_inv).
  exists id. by rewrite app_nil_r.
Qed.

Lemma download_pattern_denotes w g :
  denotes U download_pattern w g ->
  exists a o e ws1 ws2,
    g = [a; o; e]
    /\ w = py "fn_download('" ++ a ++ py "'," ++ ws1 ++ py "'" ++ o ++ py "',"
             ++ ws2 ++ py "'" ++ e ++ py "')"
    /\ captured U Digit a /\ captured U Digit o /\ captured U Word e
    /\ Forall (fun c => is_space U c = true) ws1
    /\ Forall (fun c => is_space U c = true) ws2.
Proof.
  unfold download_pattern, lits.
  intros (w1 & -> & H1)%denotes_lits.
  apply denotes_group_inv in H1 as (a & w2 & g2 & -> & -> & Ha & H2).
  apply denotes_lits in H2 as (w3 & -> & H3).
  apply denotes_star_inv in H3 as (ws1 & w4 & -> & Hws1 & H4).
  apply denotes_lits in H4 as (w5 & -> & H5).
  apply denotes_group_inv in H5 as (o & w6 & g6 & -> & -> & Ho & H6).
  apply denotes_lits in H6 as (w7 & -> & H7).
  apply denotes_star_inv in H7 as (ws2 & w8 & -> & Hws2 & H8).
  apply denotes_lits in H8 as (w9 & -> & H9).
  apply denotes_group_inv in H9 as (e & w10 & g10 & -> & -> & He & H10).
  rewrite <- (app_nil_r (map Lit (py "')"))) in H10.
  apply denotes_lits in H10 as (w11 & -> & [-> ->]%denotes_nil_inv).
  exists a, o, e, ws1, ws2. rewrite app_nil_r. by split_and!.
Qed.

Variable O : set_order.

(** X10: every id [get_article_ids] extracts from a page stands in the
    page as [fn_detail(<id>)], and is a nonempty string of decimal digits. *)
Theorem ids_occur_in_page html x :
  x ∈ article_ids_of U O html ->
  (exists pre post, html = pre ++ py "fn_detail(" ++ x ++ py ")" ++ post)
  /\ captured U Digit x.
Proof.
  intros Hx%list_of_set_elem. unfold detail_matches, findall in Hx.
  apply list_elem_of_fmap in Hx as (g & -> & Hg).
  apply findall_from_sound in Hg as (pre & w & post & -> & Hw).
  apply detail_pattern_denotes in Hw as (id & -> & -> & Hid).
  split; [|done]. exists pre, post. simpl. by rewrite <- !app_assoc.
Qed.

(** X11: every descriptor [get_file_info] extracts from a page stands in
    the page as [fn_download('<handle>',<ws>'<ordinal>',<ws>'<ext>')] with
    only whitespace at [<ws>]; handle and ordinal are nonempty strings of
    decimal digits and the extension is a nonempty string of word
    characters. *)
Theorem descriptors_occur_in_page html f :
  f ∈ file_info_of U html ->
  (exists pre ws1 ws2 post,
      html = pre ++ py "fn_download('" ++ atchFileNo f ++ py "'," ++ ws1
               ++ py "'" ++ fileOrd f ++ py "'," ++ ws2
               ++ py "'" ++ ext f ++ py "')" ++ post
      /\ Forall (fun c => is_space U c = true) ws1
      /\ Forall (fun c => is_space U c = true) ws2)
  /\ captured U Digit (atchFileNo f)
  /\ captured U Digit (fileOrd f)
  /\ captured U Word (ext f).
Proof.
  intros Hf. apply (list_elem_of_fmap_2 triple_of) in Hf.
  rewrite file_info_of_spec, first_occurrences_elem in Hf.
  unfold download_matches, findall in Hf.
  apply list_elem_of_omap in Hf as (g & Hg & Hsome).
  apply findall_from_sound in Hg as (pre & w & post & -> & Hw).
  apply download_pattern_denotes
    in Hw as (a & o & e & ws1 & ws2 & -> & -> & Ha & Ho & He & Hws1 & Hws2).
  destruct f as [fa fo fe]. unfold triple_of in Hsome.
  cbn [atchFileNo fileOrd ext] in *. simplify_eq.
  split_and!; try done.
  exists pre, ws1, ws2, post. split_and!; try done.
  by rewrite <- !app_assoc.
Qed.

End Occurrences.

(** ** Output paths and counters *)

Section Paths.
Variable U : unicode_db.
Context {World : Type}.
Variable network : World -> list pystr -> World * option bytes * outcome CompletedProcess.
Variable os_error : oscall -> option exn.
Variable dir : pystr.
Variable delay : float.
Implicit Types st : state World.

Lemma digits_without_dot id : captured U Digit id -> 46%N ∉ id.
Proof.
  intros [_ Hall] Hdot. rewrite Forall_forall in Hall.
  specialize (Hall _ Hdot). discriminate Hall.
Qed.

Lemma split_at_first (c : N) a a' b b' :
  c ∉ a -> c ∉ a' -> a ++ c :: b = a' ++ c :: b' -> a = a' /\ b = b'.
Proof.
  revert a'. induction a as [|x a IH]; intros [|x' a'] Ha Ha'; simpl.
  - by intros [= ->].
  - intros [= <- _]. destruct Ha'. by left.
  - intros [= -> _]. destruct Ha. by left.
  - intros [= -> Heq]. apply not_elem_of_cons in Ha as [_ Ha].
    apply not_elem_of_cons in Ha' as [_ Ha'].
    destruct (IH a' Ha Ha' Heq) as [-> ->]. done.
Qed.

Lemma os_path_join_relative a b :
  startswith_sep b = false ->
  os_path_join a b
  = (if bool_decide (a = []) || endswith_sep a then a else a ++ [sep]) ++ b.
Proof.
  intros Hb. unfold os_path_join. rewrite Hb.
  destruct (_ || _); [done|]. by rewrite <- app_assoc.
Qed.

(** X12: two numeric article ids with two extensions have the same output
    path only if the ids are the same and the extensions are the same: no
    article's file is taken for, or written over, another's. *)
Theorem outpath_injective ntt_id ntt_id' e e' :
  captured U Digit ntt_id -> captured U Digit ntt_id' ->
  outpath_of dir ntt_id e = outpath_of dir ntt_id' e' ->
  ntt_id = ntt_id' /\ e = e'.
Proof.
  intros Hid Hid'. unfold outpath_of.
  rewrite !os_path_join_relative by done.
  intros Heq%app_inv_head. apply (app_inv_head (py "msit-")) in Heq.
  apply (split_at_first 46%N); [by apply digits_without_dot..|done].
Qed.

(** X13: over the descriptors of one article, a counter of the tally never
    goes down, goes up by at most the number of descriptors with its
    extension, and goes up only if the extension is accepted and its output
    file is there when the loop returns. *)
Theorem article_loop_counter_bounds ntt_id files e :
  forall t st t' st' n,
    for_each World files (download_one World network os_error dir delay ntt_id) t st = (Ok t', st') ->
    t !! e = Some n ->
    exists n',
      t' !! e = Some n'
      /\ n <= n' <= n + Z.of_nat (length (filter (fun f => ext f = e) files))
      /\ (n < n' -> e ∈ accepted_exts
                    /\ is_Some (fs st' !! outpath_of dir ntt_id e)).
Proof.
  induction files as [|f files IH]; intros t st t' st' n.
  - intros [= <- <-] Hn. exists n. split; [done|]. split; [simpl; lia|lia].
  - intros (t1 & st1 & Hstep & Hrest)%for_each_cons_Ok Hn.
    pose proof (preserves_for_each (grows dir) files
                  (download_one World network os_error dir delay ntt_id) t1
                  (grows_download_one network os_error dir delay ntt_id) st1)
      as (Hkeep & _).
    rewrite Hrest in Hkeep. cbn [snd] in Hkeep.
    rewrite filter_cons.
    destruct (download_one_tally _ _ _ _ _ _ _ _ _ _ Hstep)
      as [->|(Hext & [c Hfile] & m & Hm & ->)].
    + destruct (IH _ _ _ _ _ Hrest Hn) as (n' & Hn' & Hbound & Hfile).
      exists n'. split; [done|]. split; [|done].
      destruct (decide (ext f = e)); simpl; lia.
    + destruct (decide (ext f = e)) as [<-|Hne].
      * simplify_eq.
        destruct (IH _ _ _ _ _ Hrest (lookup_insert_eq _ _ _))
          as (n' & Hn' & Hbound & _).
        exists n'. split; [done|]. split; [simpl; lia|].
        intros _. split; [done|]. exists c. by apply Hkeep.
      * destruct (IH _ _ _ _ n Hrest) as (n' & Hn' & Hbound & Hfile');
          [by rewrite lookup_insert_ne|].
        exists n'. split; [done|]. by split.
Qed.

End Paths.

(** ** No article of a page is missed *)

Section Found.
Variable U : unicode_db.
Variable O : set_order.

Lemma match_here_lits l p s :
  match_here U (map Lit l ++ p) (l ++ s)
  = match match_here U p s with
    | Some (g, n) => Some (g, (length l + n)%nat)
    | None => None
    end.
Proof.
  induction l as [|c l IH]; simpl.
  - by destruct (match_here U p s) as [[g n]|].
  - rewrite N.eqb_refl, IH. by destruct (match_here U p s) as [[g n]|].
Qed.

Lemma match_here_group_cons k p x s :
  match_here U (Group k :: p) (x :: s)
  = if in_class U k x
    then match match_here U (Group k :: p) s with
         | Some (cap :: g, n) => Some ((x :: cap) :: g, S n)
         | Some ([], n) => None
         | None =>
             match match_here U p s with
             | Some (g, n) => Some ([x] :: g, S n)
             | None => None
             end
         end
    else None.
Proof.
  simpl. destruct (in_class U k x); [|done].
  destruct ((fix more (s : pystr) := _) s) as [[[cap g] n]|]; [done|].
  by destruct (match_here U p s) as [[g n]|].
Qed.

Lemma match_here_group_stop k p s :
  (forall x s', s = x :: s' -> in_class U k x = false) ->
  match_here U (Group k :: p) s = None.
Proof.
  intros Hstop. destruct s as [|x s']; [done|].
  rewrite match_here_group_cons. by rewrite (Hstop x s').
Qed.

Lemma match_here_group k p cap s g n :
  captured U k cap ->
  (forall x s', s = x :: s' -> in_class U k x = false) ->
  match_here U p s = Some (g, n) ->
  match_here U (Group k :: p) (cap ++ s) = Some (cap :: g, (length cap + n)%nat).
Proof.
  intros [Hne Hall] Hstop Hrest. induction cap as [|x cap IH]; [done|].
  apply Forall_cons in Hall as [Hx Hall].
  change ((x :: cap) ++ s) with (x :: (cap ++ s)).
  rewrite match_here_group_cons, Hx.
  destruct cap as [|y cap'].
  - change ([] ++ s) with s.
    rewrite (match_here_group_stop _ _ _ Hstop), Hrest. done.
  - rewrite IH by done. done.
Qed.

Lemma detail_pattern_matches id post :
  captured U Digit id ->
  match_here U detail_pattern (py "fn_detail(" ++ id ++ py ")" ++ post)
  = Some ([id], (10 + (length id + 1))%nat).
Proof.
  intros Hid. unfold detail_pattern, lits. rewrite match_here_lits.
  change ([Group Digit] ++ map Lit (py ")")) with (Group Digit :: map Lit (py ")")).
  rewrite (match_here_group Digit _ id _ [] 1%nat); [done|done| |].
  - by intros x s' [= <- _].
  - reflexivity.
Qed.

(** The text of a match holds the letter f at its start only. *)
Lemma detail_match_one_f w g i :
  denotes U detail_pattern w g -> w !! i = Some 102%N -> i = 0%nat.
Proof.
  intros (id & _ & -> & [_ Hid])%detail_pattern_denotes Hi.
  destruct i as [|i]; [done|]. exfalso.
  change ((py "n_detail(" ++ id ++ py ")") !! i = Some 102%N) in Hi.
  apply list_elem_of_lookup_2 in Hi.
  rewrite !elem_of_app in Hi. destruct Hi as [Hi|[Hi|Hi]].
  - vm_compute in Hi. repeat (apply elem_of_cons in Hi as [Hi|Hi]; [discriminate Hi|]).
    by apply elem_of_nil in Hi.
  - rewrite Forall_forall in Hid. specialize (Hid _ Hi). discriminate Hid.
  - apply list_elem_of_singleton in Hi. discriminate Hi.
Qed.

Lemma findall_finds_detail id post pre skip :
  captured U Digit id ->
  (skip <= length pre)%nat ->
  [id] ∈ findall_from U detail_pattern skip
           (pre ++ py "fn_detail(" ++ id ++ py ")" ++ post).
Proof.
  intros Hid. revert skip. induction pre as [|x pre IH]; intros skip Hskip.
  - destruct skip; [|simpl in Hskip; lia].
    change ([] ++ py "fn_detail(" ++ id ++ py ")" ++ post)
      with (102%N :: (py "n_detail(" ++ id ++ py ")" ++ post)).
    cbn [findall_from].
    change (102%N :: (py "n_detail(" ++ id ++ py ")" ++ post))
      with (py "fn_detail(" ++ id ++ py ")" ++ post).
    rewrite detail_pattern_matches by done. by left.
  - change ((x :: pre) ++ py "fn_detail(" ++ id ++ py ")" ++ post)
      with (x :: (pre ++ py "fn_detail(" ++ id ++ py ")" ++ post)).
    cbn [findall_from]. simpl in Hskip.
    destruct skip as [|k]; [|apply IH; lia].
    destruct (match_here U detail_pattern _) as [[g n]|] eqn:Hm; [|apply IH; lia].
    right. apply IH.
    destruct (match_here_sound _ _ _ _ _ Hm) as (w & rest & Hs & <- & Hw).
    destruct (decide (length w <= S (length pre))%nat) as [|Hlong]; [lia|].
    exfalso.
    assert (w !! S (length pre) = Some 102%N) as Hf.
    { rewrite <- (lookup_app_l w rest) by lia. rewrite <- Hs.
      change (x :: pre ++ py "fn_detail(" ++ id ++ py ")" ++ post)
        with ((x :: pre) ++ 102%N :: (py "n_detail(" ++ id ++ py ")" ++ post)).
      by rewrite list_lookup_middle. }
    by apply (detail_match_one_f _ _ _ Hw) in Hf.
Qed.

(** X14: every [fn_detail(<digits>)] that stands in a page is found: its
    number is among the ids [get_article_ids] extracts. *)
Theorem no_article_is_missed html pre id post :
  html = pre ++ py "fn_detail(" ++ id ++ py ")" ++ post ->
  captured U Digit id ->
  id ∈ article_ids_of U O html.
Proof.
  intros -> Hid. apply list_of_set_elem. unfold detail_matches, findall.
  apply (list_elem_of_fmap_2' (fun g => default [] (head g)) _ [id]); [|done].
  apply findall_finds_detail; [done|lia].
Qed.

End Found.

(** ** The further properties on the scripted hosts *)

Lemma demo_id_numeric : captured Demo.ascii_only Digit (py "1001").
Proof. split; [discriminate|]. by repeat constructor. Qed.

Lemma demo_scan :
  exists ids st',
    scan_pages Demo.ascii_only Demo.first_seen nat Demo.host Demo.os 1 2 Demo.start = (Ok ids, st')
    /\ ids = [py "1001"; py "1002"].
Proof. eexists _, _. split; [vm_compute; reflexivity|reflexivity]. Qed.

Lemma demo_listing_id :
  py "1002" ∈ article_ids_of Demo.ascii_only Demo.first_seen Demo.listing.
Proof.
  assert (article_ids_of Demo.ascii_only Demo.first_seen Demo.listing
          = [py "1001"; py "1002"]) as -> by (vm_compute; reflexivity).
  right. by left.
Qed.

Lemma demo_detail_descriptor :
  Demo.pdf_55_2 ∈ file_info_of Demo.ascii_only Demo.detail_1001.
Proof.
  assert (exists a b, file_info_of Demo.ascii_only Demo.detail_1001
                      = [a; Demo.pdf_55_2; b]) as (a & b & ->)
    by (eexists _, _; vm_compute; reflexivity).
  right. by left.
Qed.

Lemma demo_article_loop :
  exists t' st',
    for_each nat (file_info_of Demo.ascii_only Demo.detail_1001)
      (download_one nat Demo.host Demo.os (py "msit-docs") 1 (py "1001")) initial_tally Demo.start
    = (Ok t', st')
    /\ t' !! py "hwp" = Some 2.
Proof. eexists _, _. split; vm_compute; reflexivity. Qed.

Lemma demo_tally_hwp : initial_tally !! py "hwp" = Some 0.
Proof. vm_compute. reflexivity. Qed.

(** A run with [--pages 0]. *)
Lemma main_without_pages_witness :
  main Demo.ascii_only Demo.first_seen nat Demo.host Demo.os
    {| pages := 0; outdir := py "msit-docs"; delay := 1 |} Demo.start
  = (Ok initial_tally,
     {| world := O; fs := ∅; trace := [EvMakedirs (py "msit-docs")] |}).
Proof.
  destruct (main_without_pages Demo.ascii_only Demo.first_seen Demo.host Demo.os
              {| pages := 0; outdir := py "msit-docs"; delay := 1 |} Demo.start
              ltac:(simpl; lia)) as [Hreturns _].
  apply Hreturns; [discriminate|reflexivity|reflexivity].
Defined.

(** The scan of two pages of the scripted host, the second of which fails. *)
Lemma scan_fetches_pages_in_order_witness :
  fetched_urls
    (new_events Demo.start
       (scan_pages Demo.ascii_only Demo.first_seen nat Demo.host Demo.os 1 2 Demo.start).2)
  = [LIST_URL 1; LIST_URL 2].
Proof.
  destruct (scan_fetches_pages_in_order Demo.ascii_only Demo.first_seen Demo.host
              Demo.os 1 2 Demo.start) as (_ & _ & Hall & _).
  destruct demo_scan as (ids & st' & Hscan & _).
  rewrite (Hall ids); [reflexivity|]. by rewrite Hscan.
Defined.

Lemma scan_returns_distinct_numeric_ids_witness :
  exists ids st',
    scan_pages Demo.ascii_only Demo.first_seen nat Demo.host Demo.os 1 2 Demo.start = (Ok ids, st')
    /\ NoDup ids /\ Forall (captured Demo.ascii_only Digit) ids.
Proof.
  destruct demo_scan as (ids & st' & Hscan & _).
  exists ids, st'. split; [exact Hscan|].
  exact (scan_returns_distinct_numeric_ids Demo.ascii_only Demo.first_seen Demo.host
           Demo.os 1 2 Demo.start ids st' Hscan).
Defined.

(** A refused connection while page 1 is fetched: an empty list of ids. *)
Lemma fetch_ignores_exit_status_witness :
  (get_article_ids Demo.ascii_only Demo.first_seen nat Faulty.refused 1 Demo.start).1
  = Ok [].
Proof.
  destruct (fetch_ignores_exit_status Demo.ascii_only Demo.first_seen Faulty.refused
              (LIST_URL 1) Demo.start 1%nat None {| returncode := 7; stdout := [] |}
              eq_refl) as (_ & Hids & _ & Hempty).
  rewrite (Hids 1 eq_refl). destruct (Hempty eq_refl) as [-> _]. reflexivity.
Defined.

Lemma ids_occur_in_page_witness :
  exists pre post,
    Demo.listing = pre ++ py "fn_detail(" ++ py "1002" ++ py ")" ++ post.
Proof.
  exact (proj1 (ids_occur_in_page Demo.ascii_only Demo.first_seen Demo.listing
                  (py "1002") demo_listing_id)).
Defined.

Lemma descriptors_occur_in_page_witness :
  captured Demo.ascii_only Word (ext Demo.pdf_55_2).
Proof.
  exact (proj2 (proj2 (proj2 (descriptors_occur_in_page Demo.ascii_only
                                Demo.detail_1001 Demo.pdf_55_2
                                demo_detail_descriptor)))).
Defined.

Lemma outpath_injective_witness :
  py "1001" = py "1001" /\ py "hwp" = py "hwp".
Proof.
  exact (outpath_injective Demo.ascii_only (py "msit-docs") (py "1001") (py "1001")
           (py "hwp") (py "hwp") demo_id_numeric demo_id_numeric eq_refl).
Defined.

(** Article 1001 of the scripted host: two of its descriptors are hwp, both
    are counted, and the file is there. *)
Lemma article_loop_counter_bounds_witness :
  exists n', 0 <= n' <= 0 + 2.
Proof.
  destruct demo_article_loop as (t' & st' & Hloop & _).
  destruct (article_loop_counter_bounds Demo.host Demo.os (py "msit-docs") 1 (py "1001")
              (file_info_of Demo.ascii_only Demo.detail_1001) (py "hwp")
              initial_tally Demo.start t' st' 0 Hloop demo_tally_hwp)
    as (n' & _ & Hbound & _).
  exists n'. exact Hbound.
Defined.

Lemma no_article_is_missed_witness :
  py "1001" ∈ article_ids_of Demo.ascii_only Demo.first_seen
                (py "<a onclick='" ++ py "fn_detail(" ++ py "1001" ++ py ")" ++ py "'>").
Proof.
  exact (no_article_is_missed Demo.ascii_only Demo.first_seen _
           (py "<a onclick='") (py "1001") (py "'>") eq_refl demo_id_numeric).
Defined.

(** A run with [--delay -1] against the scripted host: page 1 is fetched,
    and the delay that follows raises [ValueError]. *)
Lemma refused_delay_ends_run_witness :
  main Demo.ascii_only Demo.first_seen nat Demo.host Demo.os
    {| pages := 1; outdir := py "msit-docs"; delay := -1 |} Demo.start
  = (Raise ValueError,
     {| world := 1%nat; fs := ∅;
        trace := [EvMakedirs (py "msit-docs"); EvRun (get_argv (LIST_URL 1))] |}).
Proof.
  destruct (refused_delay_ends_run Demo.ascii_only Demo.first_seen Demo.host Demo.os
              {| pages := 1; outdir := py "msit-docs"; delay := -1 |} Demo.start
              ValueError eq_refl ltac:(simpl; lia) ltac:(discriminate) eq_refl eq_refl
              ltac:(discriminate)) as [Hrun _].
  exact Hrun.
Defined.
